(** * caps-be: multi-context retrieval, vector-store wrapper and incident sync

  A shallow embedding of the retrieval core of the repository:

  - [main.py]: [query_crime_data] and [multi_context_query]
    (module [Fusion]);
  - [core/rag/vectore_store.py]: the [VectorStore] wrapper
    (module [VStore]);
  - [core/rag/incidents_vectorstore.py]: the incident sync adapter
    (module [IncidentsVS]);
  - [apps/incidents/services.py]: [IncidentService] (module [Service]);
  - [apps/analytics/routes.py]: [get_similar_incidents_analysis]
    (module [Analytics]).

  Python floats are modelled by exact rationals [Q]; a Python exception
  is a value of [exn] carried by the [result] monad; a Python [dict] whose
  iteration order matters is an association list in insertion order. *)

From Stdlib Require Import QArith Qminmax Qfield Lqa Sorting.Sorted Permutation.
From Stdlib Require Import Numbers.DecimalString Numbers.DecimalN Numbers.DecimalPos.
From stdpp Require Import gmap strings list fin_maps.

Local Open Scope string_scope.
Local Open Scope list_scope.

(** ** Python exceptions and the error monad *)

Module Py.

(** The exception classes the modelled code raises or catches.  Every
    constructor is a subclass of Python's [Exception]; only
    [SQLAlchemyError] is caught by the [except SQLAlchemyError] clauses of
    the service layer. *)
Inductive exn : Type :=
| KeyError (key : string)
| IndexError
| ZeroDivisionError
| ValueError (msg : string)
| AttributeError (msg : string)
| SQLAlchemyError (msg : string)
| HTTPException (status_code : Z) (code : string)
| BackendError (msg : string).

Inductive result (A : Type) : Type :=
| Ok (a : A)
| Raise (e : exn).
Arguments Ok {A} a.
Arguments Raise {A} e.

Definition bind {A B} (r : result A) (k : A -> result B) : result B :=
  match r with
  | Ok a => k a
  | Raise e => Raise e
  end.

Definition is_ok {A} (r : result A) : bool :=
  match r with Ok _ => true | Raise _ => false end.

Definition raises {A} (r : result A) : Prop := exists e, r = Raise e.

(** [for x in xs: acc = body(acc, x)] where the body may raise. *)
Fixpoint for_each {A S} (body : S -> A -> result S) (xs : list A) (s : S)
  : result S :=
  match xs with
  | [] => Ok s
  | x :: xs' => bind (body s x) (for_each body xs')
  end.

(** [[f(x) for x in xs]] where [f] may raise. *)
Fixpoint map_result {A B} (f : A -> result B) (xs : list A)
  : result (list B) :=
  match xs with
  | [] => Ok []
  | x :: xs' =>
      bind (f x) (fun y => bind (map_result f xs') (fun ys => Ok (y :: ys)))
  end.

(** [l[:n]] for a Python int [n]: a negative bound counts from the end. *)
Definition slice_to {A} (n : Z) (l : list A) : list A :=
  if (0 <=? n)%Z then take (Z.to_nat n) l
  else take (Z.to_nat (Z.of_nat (length l) + n)) l.

(** [int(s)] on the text of a record id.  Ids are written by [str(i)], so
    only plain decimal numerals occur; any other text is a [ValueError]. *)
Definition int_of_str (s : string) : result Z :=
  match NilZero.int_of_string s with
  | Some d => Ok (Z.of_int d)
  | None => Raise (ValueError "invalid literal for int()")
  end.

End Py.
Export Py.

Declare Scope py_scope.
Notation "x <- r ;; k" := (Py.bind r (fun x => k))
(at level 100, r at next level, right associativity) : py_scope.
Local Open Scope py_scope.

(** ** main.py: single-view and multi-context retrieval *)

Module Fusion.

(** An embedding vector, as produced by [generate_gemini_embeddings]. *)
Definition Embedding := list Q.

(** What [collection.query] returns for one query embedding:
    [results['ids'][0]] and [results['distances'][0]]. *)
Record QueryResult : Type := mkQueryResult {
  ids : list string;
  distances : list Q
}.

(** A Chroma collection seen through its [query] method: the query
    embedding and [n_results] give a result or an exception. *)
Definition Collection := Embedding -> Z -> result QueryResult.

(** The external collaborators of the two query functions. *)
Record Env : Type := mkEnv {
  generate_gemini_embeddings : string -> result Embedding;
  collections : gmap string Collection
}.

(** [collections[context_type]] *)
Definition get_collection (env : Env) (context_type : string)
  : result Collection :=
  match collections env !! context_type with
  | Some c => Ok c
  | None => Raise (KeyError context_type)
  end.

Section DataFrame.
Variable Row : Type.

(** [df.iloc[positions]]: positions in [-len, len) select a row, any
    other position is an [IndexError]. *)
Definition iloc_one (df : list Row) (i : Z) : result Row :=
  let n := Z.of_nat (length df) in
  let j := if (i <? 0)%Z then (n + i)%Z else i in
  if ((0 <=? j) && (j <? n))%Z then
    match df !! Z.to_nat j with
    | Some r => Ok r
    | None => Raise IndexError
    end
  else Raise IndexError.

Definition iloc (df : list Row) (positions : list Z) : result (list Row) :=
  map_result (iloc_one df) positions.

(** [query_crime_data(query_text, df, collections, context_type, n_results)] *)
Definition query_crime_ids (env : Env) (query_text : string)
    (context_type : string) (n_results : Z) : result (list string) :=
  query_embedding <- generate_gemini_embeddings env query_text ;;
  collection <- get_collection env context_type ;;
  results <- collection query_embedding n_results ;;
  Ok (ids results).

Definition query_crime_data (env : Env) (query_text : string)
    (df : list Row) (context_type : string) (n_results : Z)
  : result (list Row) :=
  id_texts <- query_crime_ids env query_text context_type n_results ;;
  doc_ids <- map_result int_of_str id_texts ;;
  iloc df doc_ids.
End DataFrame.

(** *** The score dictionary [doc_scores] (insertion ordered) *)

Definition Scores := list (string * Q).

(** [doc_scores.get(doc_id, default)] *)
Fixpoint dict_get (d : Scores) (k : string) (default : Q) : Q :=
  match d with
  | [] => default
  | (k', v) :: d' => if String.eqb k' k then v else dict_get d' k default
  end.

(** [doc_scores[doc_id] = v]: an existing key keeps its position, a new
    key goes last. *)
Fixpoint dict_set (d : Scores) (k : string) (v : Q) : Scores :=
  match d with
  | [] => [(k, v)]
  | (k', v') :: d' =>
      if String.eqb k' k then (k', v) :: d' else (k', v') :: dict_set d' k v
  end.

(** [max(distances)] on a non-empty list with head [m]: the first maximal
    element is kept. *)
Fixpoint max_from (m : Q) (l : list Q) : Q :=
  match l with
  | [] => m
  | x :: l' => max_from (if Qle_bool x m then m else x) l'
  end.

(** [max(distances) if distances else 1.0] *)
Definition max_dist_of (distances : list Q) : Q :=
  match distances with
  | [] => 1%Q
  | x :: l => max_from x l
  end.

(** [a / b] on floats: a zero divisor raises. *)
Definition py_div (a b : Q) : result Q :=
  if Qeq_bool b 0 then Raise ZeroDivisionError else Ok (a / b)%Q.

(** The inner loop
    [for i, doc_id in enumerate(results['ids'][0]): ...], started at
    index [i]. *)
Fixpoint score_loop (dists : list Q) (max_dist weight : Q) (i : nat)
    (doc_ids : list string) (doc_scores : Scores) : result Scores :=
  match doc_ids with
  | [] => Ok doc_scores
  | doc_id :: rest =>
      match dists !! i with
      | None => Raise IndexError
      | Some di =>
          ratio <- py_div di max_dist ;;
          let score := ((1 - ratio) * weight)%Q in
          score_loop dists max_dist weight (S i) rest
            (dict_set doc_scores doc_id (dict_get doc_scores doc_id 0 + score)%Q)
      end
  end.

(** The embed and index-query step of one view. *)
Definition query_view (env : Env) (query_text : string) (n : Z)
    (context_type : string) : result QueryResult :=
  query_embedding <- generate_gemini_embeddings env query_text ;;
  collection <- get_collection env context_type ;;
  collection query_embedding n.

(** The scoring step of one view, given its query result. *)
Definition score_view (results : QueryResult) (weight : Q)
    (doc_scores : Scores) : result Scores :=
  let dists := distances results in
  let max_dist := max_dist_of dists in
  score_loop dists max_dist weight 0 (ids results) doc_scores.

(** One iteration of [for context_type, weight in weights.items()]. *)
Definition process_view (env : Env) (query_text : string) (n : Z)
    (doc_scores : Scores) (view : string * Q) : result Scores :=
  results <- query_view env query_text n view.1 ;;
  score_view results view.2 doc_scores.

(** The weights used when the caller passes [weights=None]. *)
Definition default_weights : list (string * Q) :=
  [ ("full_context", (3 # 10)%Q);
    ("geo_context", (2 # 10)%Q);
    ("temporal_context", (2 # 10)%Q);
    ("environmental_context", (15 # 100)%Q);
    ("socioeconomic_context", (15 # 100)%Q) ].

Definition weights_or_default (weights : option (list (string * Q)))
  : list (string * Q) :=
  match weights with
  | None => default_weights
  | Some w => w
  end.

(** [doc_scores] after the loop over the views; [n] is [len(df)]. *)
Definition multi_context_scores (env : Env) (query_text : string) (n : Z)
    (weights : list (string * Q)) : result Scores :=
  for_each (process_view env query_text n) weights [].

(** [sorted(items, key=lambda x: x[1], reverse=True)]: a stable sort, so
    items of equal score keep their order in [items]. *)
Fixpoint insert_desc (x : string * Q) (l : Scores) : Scores :=
  match l with
  | [] => [x]
  | y :: l' =>
      if Qle_bool y.2 x.2 then x :: y :: l' else y :: insert_desc x l'
  end.

Fixpoint sorted_desc (l : Scores) : Scores :=
  match l with
  | [] => []
  | x :: l' => insert_desc x (sorted_desc l')
  end.

(** [top_docs] *)
Definition top_docs_of (doc_scores : Scores) (n_results : Z) : Scores :=
  slice_to n_results (sorted_desc doc_scores).

Definition multi_context_top_docs (env : Env) (query_text : string)
    (df_len : nat) (weights : option (list (string * Q))) (n_results : Z)
  : result Scores :=
  doc_scores <- multi_context_scores env query_text (Z.of_nat df_len)
                  (weights_or_default weights) ;;
  Ok (top_docs_of doc_scores n_results).

(** The record ids of the result, in result order, before [int()]. *)
Definition multi_context_ids (env : Env) (query_text : string)
    (df_len : nat) (weights : option (list (string * Q))) (n_results : Z)
  : result (list string) :=
  top_docs <- multi_context_top_docs env query_text df_len weights n_results ;;
  Ok (map fst top_docs).

Section DataFrame.
Variable Row : Type.

(** [multi_context_query(query_text, df, collections, weights, n_results)] *)
Definition multi_context_query (env : Env) (query_text : string)
    (df : list Row) (weights : option (list (string * Q)))
    (n_results : Z) : result (list Row) :=
  id_texts <- multi_context_ids env query_text (length df) weights n_results ;;
  top_ids <- map_result int_of_str id_texts ;;
  iloc Row df top_ids.
End DataFrame.

Arguments query_crime_data {Row}.
Arguments multi_context_query {Row}.

(** *** Closed forms used to state what the loops compute *)

(** What one view adds to the score of record [k]: one term per result
    position holding [k]. *)
Fixpoint contrib (doc_ids : list string) (dists : list Q)
    (max_dist weight : Q) (k : string) : Q :=
  match doc_ids, dists with
  | doc_id :: doc_ids', di :: dists' =>
      ((if String.eqb doc_id k then (1 - di / max_dist) * weight else 0)
       + contrib doc_ids' dists' max_dist weight k)%Q
  | _, _ => 0%Q
  end.

Definition view_contrib (r : QueryResult) (weight : Q) (k : string) : Q :=
  contrib (ids r) (distances r) (max_dist_of (distances r)) weight k.

(** The sum over the queried views of their contributions, with the
    weights exactly as the caller passed them. *)
Fixpoint fused_score (weights : list (string * Q)) (rs : list QueryResult)
    (k : string) : Q :=
  match weights, rs with
  | v :: weights', r :: rs' =>
      (view_contrib r v.2 k + fused_score weights' rs' k)%Q
  | _, _ => 0%Q
  end.

Fixpoint sum_weights (weights : list (string * Q)) : Q :=
  match weights with
  | [] => 0%Q
  | v :: weights' => (v.2 + sum_weights weights')%Q
  end.




(** A query result as Chroma produces it: one distance per id, no id
    twice, no negative distance, and a non-zero maximum when there are
    candidates. *)
Record well_formed (r : QueryResult) : Prop := mkWellFormed {
  wf_length : length (ids r) = length (distances r);
  wf_nodup : NoDup (ids r);
  wf_nonneg : Forall (fun di => (0 <= di)%Q) (distances r);
  wf_max : ~ (max_dist_of (distances r) == 0)%Q
}.

(** The views named by [weights] are all embedded and queried
    successfully, with results [rs]. *)
Definition queried (env : Env) (query_text : string) (n : Z)
    (weights : list (string * Q)) (rs : list QueryResult) : Prop :=
  Forall2 (fun v r => query_view env query_text n v.1 = Ok r) weights rs.

(** Keys of [doc_scores] in insertion order. *)
Definition add_key (ks : list string) (k : string) : list string :=
  if bool_decide (k ∈ ks) then ks else ks ++ [k].

Definition first_seen (ks0 : list string) (seen : list string)
  : list string :=
  fold_left add_key seen ks0.


(** Descending score order, and the items of one score. *)
Definition desc (a b : string * Q) : Prop := (b.2 <= a.2)%Q.

Definition has_score (s : Q) (x : string * Q) : bool := Qeq_bool x.2 s.


(** *** The tie-break rule as the specification words it *)

(** Number of views whose result holds record [k]. *)
Definition contributing_views (rs : list QueryResult) (k : string) : nat :=
  length (List.filter (fun r => bool_decide (k ∈ ids r)) rs).

(** Record ids compared as the integers they denote. *)
Definition id_lt (a b : string) : bool :=
  match int_of_str a, int_of_str b with
  | Ok x, Ok y => (x <? y)%Z
  | _, _ => false
  end.

(** [a] may stand before [b]: higher fused score, or equal score and more
    contributing views, or equal on both and the smaller record id. *)
Definition spec_before (rs : list QueryResult) (a b : string * Q) : bool :=
  negb (Qle_bool a.2 b.2)
  || (Qeq_bool a.2 b.2
      && ((contributing_views rs b.1 <? contributing_views rs a.1)%nat
          || ((contributing_views rs a.1 =? contributing_views rs b.1)%nat
              && id_lt a.1 b.1))).

Fixpoint spec_ordered (rs : list QueryResult) (l : Scores) : bool :=
  match l with
  | a :: (b :: _) as l' => spec_before rs a b && spec_ordered rs l'
  | _ => true
  end.

End Fusion.

(** ** Concrete indexes used in the examples *)

Module Fixtures.
Import Fusion.

(** An index holding [hits] (id and distance to the query, nearest
    first): a query for [n] results answers with the first [n]. *)
Definition fixed_collection (hits : list (string * Q)) : Collection :=
  fun _ n =>
    if (n <=? 0)%Z then Raise (ValueError "n_results must be positive")
    else Ok (mkQueryResult (map fst (take (Z.to_nat n) hits))
                           (map snd (take (Z.to_nat n) hits))).

(** An index that cannot be reached. *)
Definition failing_collection : Collection :=
  fun _ _ => Raise (BackendError "IndexUnavailable").

Definition embed_ok : string -> result Embedding := fun _ => Ok [].

Definition env_of (cs : list (string * Collection)) : Env :=
  mkEnv embed_ok (list_to_map cs).

(** The scenario of the specification: three records in the temporal
    view, two of them in the geographic view. *)
Definition temporal_hits : list (string * Q) :=
  [("0", (1 # 10)%Q); ("1", (5 # 10)%Q); ("2", (9 # 10)%Q)].
Definition geo_hits : list (string * Q) :=
  [("1", (2 # 10)%Q); ("2", (4 # 10)%Q)].
Definition env_scenario : Env :=
  env_of [("temporal_context", fixed_collection temporal_hits);
          ("geo_context", fixed_collection geo_hits)].
Definition weights_scenario : list (string * Q) :=
  [("temporal_context", 1%Q); ("geo_context", 1%Q)].

Definition rows3 : list string := ["row0"; "row1"; "row2"].


(** Two views that rank two records in opposite orders. *)
Definition env_cross : Env :=
  env_of [("temporal_context", fixed_collection [("1", 1%Q); ("0", 2%Q)]);
          ("geo_context", fixed_collection [("0", 1%Q); ("1", 2%Q)])].
Definition rs_cross : list QueryResult :=
  [mkQueryResult ["1"; "0"] [1%Q; 2%Q]; mkQueryResult ["0"; "1"] [1%Q; 2%Q]].


(** The only record of the index is at distance zero from the query. *)
Definition env_exact : Env :=
  env_of [("full_context", fixed_collection [("0", 0%Q)])].

(** One healthy view and one unreachable view. *)
Definition env_outage : Env :=
  env_of [("full_context", fixed_collection temporal_hits);
          ("geo_context", failing_collection)].

End Fixtures.

(** ** State, logging and exceptions of the service code *)

Module Eff.

(** JSON-like scalar values of document metadata and filters. *)
Inductive Scalar : Type :=
| SStr (s : string)
| SNum (q : Q).

Definition scalar_eqb (a b : Scalar) : bool :=
  match a, b with
  | SStr x, SStr y => String.eqb x y
  | SNum x, SNum y => Qeq_bool x y
  | _, _ => false
  end.

Definition Metadata := gmap string Scalar.

(** [langchain_core.documents.Document] *)
Record Document : Type := mkDocument {
  page_content : string;
  metadata : Metadata
}.

(** A stored row of one collection: id, embedding vector and document. *)
Record IndexEntry : Type := mkIndexEntry {
  entry_id : string;
  vector : list Q;
  entry_doc : Document
}.

Definition Index := list IndexEntry.

Definition UUID := N.

(** A row of the incident table ([apps/incidents/models.py]); the
    optional analytic columns that no modelled function reads are left
    out. *)
Record Incident : Type := mkIncident {
  id : UUID;
  title : string;
  description : option string;
  type : string;
  date : string;
  location : Metadata;
  severity : string;
  status : string;
  reporting_officer : option string;
  notes : option string;
  environmental_factors : option Metadata;
  socioeconomic_factors : option Metadata;
  weapon_used : option string;
  victim_count : option Z;
  created_at : string;
  updated_at : string
}.

(** The unit of work of a database session. *)
Inductive PendingOp : Type :=
| PendingAdd (incident : Incident)
| PendingDelete (incident_id : UUID).

Inductive Level : Type := Info | Warning | Error.

Record LogEntry : Type := mkLog {
  level : Level;
  message : string;
  cause : option exn
}.

(** Everything the service code reads and writes. *)
Record World : Type := mkWorld {
  index : Index;
  db : gmap UUID Incident;
  pending : list PendingOp;
  log : list LogEntry
}.

(** A computation that reads and writes the world and may raise; what it
    wrote before raising stays written. *)
Definition M (A : Type) : Type := World -> result A * World.

Definition ret {A} (a : A) : M A := fun w => (Ok a, w).

Definition throw {A} (e : exn) : M A := fun w => (Raise e, w).

Definition mbind {A B} (m : M A) (k : A -> M B) : M B :=
  fun w =>
    match m w with
    | (Ok a, w') => k a w'
    | (Raise e, w') => (Raise e, w')
    end.

(** [try: m  except Exception as e: handler(e)] *)
Definition try_except {A} (m : M A) (handler : exn -> M A) : M A :=
  fun w =>
    match m w with
    | (Ok a, w') => (Ok a, w')
    | (Raise e, w') => handler e w'
    end.

(** [try: m  except SQLAlchemyError as e: handler(e)] *)
Definition try_except_sql {A} (m : M A) (handler : string -> M A) : M A :=
  try_except m (fun e =>
    match e with
    | SQLAlchemyError msg => handler msg
    | _ => throw e
    end).

Definition lift {A} (r : result A) : M A := fun w => (r, w).

Definition logger (lvl : Level) (msg : string) (e : option exn) : M unit :=
  fun w =>
    (Ok tt, mkWorld (index w) (db w) (pending w) (log w ++ [mkLog lvl msg e])).

Definition get_index : M Index := fun w => (Ok (index w), w).

Definition put_index (idx : Index) : M unit :=
  fun w => (Ok tt, mkWorld idx (db w) (pending w) (log w)).

(** The world with one more log entry. *)
Definition logged (w : World) (entry : LogEntry) : World :=
  mkWorld (index w) (db w) (pending w) (log w ++ [entry]).

(** A computation that leaves the incident table and the session's unit
    of work as they are. *)
Definition keeps_table {A} (m : M A) : Prop :=
  forall w, db (m w).2 = db w /\ pending (m w).2 = pending w.

(** Python truthiness of an optional string. *)
Definition truthy (o : option string) : bool :=
  match o with
  | Some s => negb (String.eqb s "")
  | None => false
  end.

End Eff.
Export Eff.

Notation "x <~ m ;; k" := (Eff.mbind m (fun x => k))
(at level 100, m at next level, right associativity) : py_scope.
Notation "m ;;; k" := (Eff.mbind m (fun _ => k))
(at level 100, right associativity) : py_scope.

(** ** core/rag/vectore_store.py *)

Module VStore.

Definition Filter := Metadata.

(** [VectorStoreConfig] *)
Record Config : Type := mkConfig {
  collection_name : string;
  embedding_model : string;
  embedding_dimensions : Z;
  use_jsonb : bool;
  connection_string : string
}.

(** [VectorStoreConfig.__init__]; [database_url] is
    [os.getenv("DATABASE_URL")]. *)
Definition VectorStoreConfig (database_url : option string)
    (collection_name embedding_model : string) (embedding_dimensions : Z)
  : result Config :=
  match database_url with
  | Some url =>
      if String.eqb url "" then
        Raise (ValueError "Database connection string not found")
      else Ok (mkConfig collection_name embedding_model embedding_dimensions
                 true url)
  | None => Raise (ValueError "Database connection string not found")
  end.

(** The store behind the wrapper (langchain's [PGVector]), seen through
    the three methods the wrapper calls.  Each works on the rows of the
    collection; an exception leaves the rows it wrote. *)
Record Backend : Type := mkBackend {
  pg_add_documents : list Document -> Index -> result (list string) * Index;
  pg_delete : option (list string) -> option Filter -> Index
              -> result unit * Index;
  pg_similarity_search : string -> Z -> Filter -> Index
                         -> result (list Document)
}.

(** [VectorStore]: its configuration, and what the lazily created
    [PGVector] turns out to be (an exception when the connection fails). *)
Record VectorStore : Type := mkVectorStore {
  config : Config;
  vector_store : result Backend
}.

(** Run a backend method on the rows of the world. *)
Definition on_index {A} (f : Index -> result A * Index) : M A :=
  fun w =>
    let '(r, idx) := f (index w) in
    (r, mkWorld idx (db w) (pending w) (log w)).

(** [VectorStore.similarity_search] *)
Definition similarity_search (self : VectorStore) (query : string) (k : Z)
    (filter : Filter) : M (list Document) :=
  try_except
    (store <~ lift (vector_store self) ;;
     on_index (fun idx => (pg_similarity_search store query k filter idx, idx)))
    (fun e => logger Error "Error in similarity search" (Some e) ;;; throw e).

(** [VectorStore.add_documents] *)
Definition add_documents (self : VectorStore) (documents : list Document)
  : M (list string) :=
  match documents with
  | [] => logger Warning "No documents to add" None ;;; ret []
  | _ =>
      try_except
        (logger Info "Adding documents to vector store" None ;;;
         store <~ lift (vector_store self) ;;
         on_index (pg_add_documents store documents))
        (fun e => logger Error "Error adding documents" (Some e) ;;; throw e)
  end.

(** [VectorStore.delete] *)
Definition delete (self : VectorStore) (ids : option (list string))
    (filter : option Filter) : M unit :=
  try_except
    (store <~ lift (vector_store self) ;;
     on_index (pg_delete store ids filter) ;;;
     logger Info "Deleted documents from vector store" None)
    (fun e => logger Error "Error deleting documents" (Some e) ;;; throw e).


(** *** A concrete backend *)

(** A store that embeds the texts and keeps the rows as they come, with no
    constraint on the length of the vectors: the wrapper constructs
    [PGVector] without [embedding_length], so the embedding column is
    created without a dimension.  [embed] is the embedding model. *)
Definition next_id (idx : Index) (i : nat) : string :=
  NilZero.string_of_uint (Nat.to_uint (length idx + i)).

Definition rows_of (embed : string -> list Q) (idx : Index)
    (documents : list Document) : list IndexEntry :=
  imap (fun i doc => mkIndexEntry (next_id idx i) (embed (page_content doc)) doc)
       documents.

Definition matches (filter : Filter) (row : IndexEntry) : bool :=
  forallb
    (fun kv : string * Scalar =>
       match metadata (entry_doc row) !! kv.1 with
       | Some v' => scalar_eqb kv.2 v'
       | None => false
       end)
    (map_to_list filter).

Definition unchecked_backend (embed : string -> list Q) : Backend :=
  mkBackend
    (fun documents idx =>
       let rows := rows_of embed idx documents in
       (Ok (map entry_id rows), idx ++ rows))
    (fun ids filter idx =>
       let keep_id row :=
         match ids with
         | Some l => negb (bool_decide (entry_id row ∈ l))
         | None => true
         end in
       let keep_filter row :=
         match filter with
         | Some f => negb (matches f row)
         | None => true
         end in
       (Ok tt, List.filter (fun row => keep_id row && keep_filter row) idx))
    (fun _ k filter idx =>
       Ok (map entry_doc (slice_to k (List.filter (matches filter) idx)))).

End VStore.

(** ** core/rag/incidents_vectorstore.py *)

Module IncidentsVS.
Import VStore.

(** What the adapter needs from its surroundings. *)
Record Deps : Type := mkDeps {
  database_url : option string;            (* os.getenv("DATABASE_URL") *)
  pg_connect : Config -> result Backend;   (* constructing PGVector *)
  json_dumps : Metadata -> string;
  str_of_uuid : UUID -> string             (* str(uuid) *)
}.

(** [get_incident_vector_store]; the module-level cache only saves
    constructing the store again. *)
Definition get_incident_vector_store (deps : Deps) : M VectorStore :=
  config <~ lift (VectorStoreConfig (database_url deps) "incidents"
                    "models/text-embedding-004" 768) ;;
  ret (mkVectorStore config (pg_connect deps config)).

Definition or_empty (o : option string) : string :=
  match o with Some s => s | None => "" end.

Definition scalar_or (o : option Scalar) (default : string) : Scalar :=
  match o with Some v => v | None => SStr default end.

Definition non_empty (o : option Metadata) : option Metadata :=
  match o with
  | Some m => if decide (m = ∅) then None else Some m
  | None => None
  end.

(** [incident_to_document] *)
Definition incident_to_document (deps : Deps) (incident : Incident)
  : Document :=
  let date_str := date incident in
  let content :=
    String.concat ""
      [ "Incident ID: "; str_of_uuid deps (id incident);
        " Title: "; title incident;
        " Type: "; type incident;
        " Date: "; date_str;
        " Description: "; or_empty (description incident);
        " Location: "; json_dumps deps (location incident);
        " Severity: "; severity incident;
        " Status: "; status incident;
        " Notes: "; or_empty (notes incident) ] in
  let content :=
    match non_empty (environmental_factors incident) with
    | Some m => content ++ "Environmental Factors: " ++ json_dumps deps m
    | None => content
    end%string in
  let content :=
    match non_empty (socioeconomic_factors incident) with
    | Some m => content ++ "Socioeconomic Factors: " ++ json_dumps deps m
    | None => content
    end%string in
  mkDocument content
    (list_to_map
       [ ("id", SStr (str_of_uuid deps (id incident)));
         ("type", SStr (type incident));
         ("date", SStr date_str);
         ("severity", SStr (severity incident));
         ("status", SStr (status incident));
         ("district", scalar_or (location incident !! "district") "unknown");
         ("neighborhood",
          scalar_or (location incident !! "neighborhood") "unknown");
         ("created_at", SStr (created_at incident));
         ("updated_at", SStr (updated_at incident)) ]).

(** The [except Exception] clause shared by the three sync functions:
    log the error and the traceback, then re-raise. *)
Definition log_and_reraise {A} (msg : string) (e : exn) : M A :=
  logger Error msg (Some e) ;;;
  logger Error "traceback" (Some e) ;;;
  throw e.

Definition id_filter (deps : Deps) (incident_id : UUID) : Filter :=
  {[ "id" := SStr (str_of_uuid deps incident_id) ]}.

(** [add_incident_to_vector_store] *)
Definition add_incident_to_vector_store (deps : Deps) (incident : Incident)
  : M unit :=
  try_except
    (vector_store <~ get_incident_vector_store deps ;;
     let document := incident_to_document deps incident in
     add_documents vector_store [document] ;;;
     logger Info "Added incident to vector store" None)
    (log_and_reraise "Error adding incident to vector store").

(** [update_incident_in_vector_store]: delete, then add. *)
Definition update_incident_in_vector_store (deps : Deps)
    (incident : Incident) : M unit :=
  try_except
    (vector_store <~ get_incident_vector_store deps ;;
     delete vector_store None (Some (id_filter deps (id incident))) ;;;
     let document := incident_to_document deps incident in
     add_documents vector_store [document] ;;;
     logger Info "Updated incident in vector store" None)
    (log_and_reraise "Error updating incident in vector store").

(** [delete_incident_from_vector_store] *)
Definition delete_incident_from_vector_store (deps : Deps)
    (incident_id : UUID) : M unit :=
  try_except
    (vector_store <~ get_incident_vector_store deps ;;
     delete vector_store None (Some (id_filter deps incident_id)) ;;;
     logger Info "Deleted incident from vector store" None)
    (log_and_reraise "Error deleting incident from vector store").

(** One item of the list [get_similar_incidents] returns. *)
Record SimilarMeta : Type := mkSimilarMeta {
  m_id : Scalar;
  m_score : Scalar;
  m_type : Scalar;
  m_date : Scalar;
  m_severity : Scalar;
  m_district : Scalar
}.

(** [doc.metadata[key]] *)
Definition meta_get (doc : Document) (key : string) : result Scalar :=
  match metadata doc !! key with
  | Some v => Ok v
  | None => Raise (KeyError key)
  end.

Definition meta_of_document (doc : Document) : result SimilarMeta :=
  i <- meta_get doc "id" ;;
  let score := default (SNum 1%Q) (metadata doc !! "score") in
  t <- meta_get doc "type" ;;
  d <- meta_get doc "date" ;;
  sev <- meta_get doc "severity" ;;
  dis <- meta_get doc "district" ;;
  Ok (mkSimilarMeta i score t d sev dis).

(** The [try] block of [get_similar_incidents]. *)
Definition search_similar (deps : Deps) (query : string)
    (filters : option Filter) (k : Z) : M (list SimilarMeta) :=
  vector_store <~ get_incident_vector_store deps ;;
  let search_filter : Filter :=
    match filters with
    | Some f => if decide (f = ∅) then ∅ else f
    | None => ∅
    end in
  documents <~ similarity_search vector_store query k search_filter ;;
  lift (map_result meta_of_document documents).

(** [get_similar_incidents]: any exception of the [try] block is logged
    and turned into the empty list. *)
Definition get_similar_incidents (deps : Deps) (query : string)
    (filters : option Filter) (k : Z) : M (list SimilarMeta) :=
  try_except (search_similar deps query filters k)
    (fun e =>
       logger Error "Error searching for similar incidents" (Some e) ;;;
       logger Error "traceback" (Some e) ;;;
       ret []).

End IncidentsVS.

(** ** apps/incidents/services.py *)

Module Service.
Import VStore IncidentsVS.

(** The database session and the clock, as the service sees them.  A
    fault makes the corresponding session call raise [SQLAlchemyError]. *)
Record SessionDeps : Type := mkSessionDeps {
  get_fault : option string;
  commit_fault : option string;
  refresh_fault : option string;
  uuid4 : UUID;
  utcnow : string;
  fromisoformat : string -> result string
}.

Definition fault (f : option string) : M unit :=
  match f with
  | Some msg => throw (SQLAlchemyError msg)
  | None => ret tt
  end.

(** [session.get(Incident, incident_id)] *)
Definition session_get (sdeps : SessionDeps) (incident_id : UUID)
  : M (option Incident) :=
  fault (get_fault sdeps) ;;;
  (fun w => (Ok (db w !! incident_id), w)).

Definition apply_op (table : gmap UUID Incident) (op : PendingOp)
  : gmap UUID Incident :=
  match op with
  | PendingAdd incident => <[id incident := incident]> table
  | PendingDelete incident_id => base.delete incident_id table
  end.

(** The world once the session's unit of work, extended by [op], is
    committed. *)
Definition committed (w : World) (op : PendingOp) : World :=
  mkWorld (index w) (fold_left apply_op (pending w ++ [op]) (db w)) []
    (log w).

Definition enqueue (op : PendingOp) : M unit :=
  fun w => (Ok tt, mkWorld (index w) (db w) (pending w ++ [op]) (log w)).

(** [session.add(incident)] *)
Definition session_add (incident : Incident) : M unit :=
  enqueue (PendingAdd incident).

(** [session.delete(incident)] *)
Definition session_delete (incident : Incident) : M unit :=
  enqueue (PendingDelete (id incident)).

(** [session.commit()]: the unit of work reaches the table, or the call
    raises and the table is as before. *)
Definition session_commit (sdeps : SessionDeps) : M unit :=
  fault (commit_fault sdeps) ;;;
  (fun w =>
     (Ok tt, mkWorld (index w) (fold_left apply_op (pending w) (db w)) []
               (log w))).

(** [session.rollback()]: the pending unit of work is dropped; committed
    rows stay. *)
Definition session_rollback : M unit :=
  fun w => (Ok tt, mkWorld (index w) (db w) [] (log w)).

(** [session.refresh(incident)] *)
Definition session_refresh (sdeps : SessionDeps) (incident : Incident)
  : M Incident :=
  fault (refresh_fault sdeps) ;;;
  (fun w =>
     match db w !! id incident with
     | Some row => (Ok row, w)
     | None => (Raise (SQLAlchemyError "instance is not persistent"), w)
     end).

(** [IncidentCreate] *)
Record IncidentCreate : Type := mkIncidentCreate {
  c_title : string;
  c_description : option string;
  c_type : string;
  c_date : string;
  c_location : Metadata;
  c_severity : string;
  c_status : string;
  c_notes : option string;
  c_environmental_factors : option Metadata;
  c_socioeconomic_factors : option Metadata;
  c_weapon_used : option string;
  c_victim_count : option Z
}.

(** [IncidentUpdate] *)
Record IncidentUpdate : Type := mkIncidentUpdate {
  u_title : option string;
  u_description : option string;
  u_type : option string;
  u_date : option string;
  u_location : option Metadata;
  u_severity : option string;
  u_status : option string;
  u_reporting_officer : option string;
  u_notes : option string;
  u_environmental_factors : option Metadata;
  u_socioeconomic_factors : option Metadata;
  u_weapon_used : option string;
  u_victim_count : option Z
}.

(** [IncidentService._format_incident]: the response carries the fields
    of the row. *)
Definition _format_incident (incident : Incident) : Incident := incident.

(** The [except SQLAlchemyError] clause of the three operations. *)
Definition on_database_error {A} (where_ : string) (msg : string) : M A :=
  session_rollback ;;;
  logger Error where_ (Some (SQLAlchemyError msg)) ;;;
  throw (ValueError ("Database error: " ++ msg)%string).

Definition new_incident (vdeps : Deps) (sdeps : SessionDeps)
    (incident_data : IncidentCreate) (user_id : UUID) (date : string)
  : Incident :=
  mkIncident (uuid4 sdeps) (c_title incident_data)
    (c_description incident_data) (c_type incident_data) date
    (c_location incident_data) (c_severity incident_data)
    (c_status incident_data) (Some (str_of_uuid vdeps user_id))
    (c_notes incident_data)
    (c_environmental_factors incident_data)
    (c_socioeconomic_factors incident_data)
    (if truthy (c_weapon_used incident_data)
     then c_weapon_used incident_data else None)
    (c_victim_count incident_data)
    (utcnow sdeps) (utcnow sdeps).

(** [IncidentService.create_incident] *)
Definition create_incident (vdeps : Deps) (sdeps : SessionDeps)
    (incident_data : IncidentCreate) (user_id : UUID) : M Incident :=
  try_except_sql
    (date <~ lift (fromisoformat sdeps (c_date incident_data)) ;;
     let incident := new_incident vdeps sdeps incident_data user_id date in
     session_add incident ;;;
     session_commit sdeps ;;;
     incident <~ session_refresh sdeps incident ;;
     try_except (add_incident_to_vector_store vdeps incident)
       (fun e =>
          logger Error "Vector store update failed, but incident was created"
            (Some e)) ;;;
     ret (_format_incident incident))
    (on_database_error "Database error in create_incident").

Definition pick (new : option string) (old : string) : string :=
  if truthy new then or_empty new else old.

Definition pick_opt {A} (new : option A) (old : option A) : option A :=
  match new with Some _ => new | None => old end.

Definition updated_incident (sdeps : SessionDeps) (incident : Incident)
    (incident_data : IncidentUpdate) (date : string) : Incident :=
  mkIncident (id incident)
    (pick (u_title incident_data) (title incident))
    (pick_opt (u_description incident_data) (description incident))
    (pick (u_type incident_data) (type incident))
    date
    (match u_location incident_data with
     | Some l => l
     | None => location incident
     end)
    (pick (u_severity incident_data) (severity incident))
    (pick (u_status incident_data) (status incident))
    (if truthy (u_reporting_officer incident_data)
     then u_reporting_officer incident_data else reporting_officer incident)
    (pick_opt (u_notes incident_data) (notes incident))
    (pick_opt (u_environmental_factors incident_data)
       (environmental_factors incident))
    (pick_opt (u_socioeconomic_factors incident_data)
       (socioeconomic_factors incident))
    (pick_opt (u_weapon_used incident_data) (weapon_used incident))
    (pick_opt (u_victim_count incident_data) (victim_count incident))
    (created_at incident)
    (utcnow sdeps).

(** [if incident_data.date: incident.date = fromisoformat(...)] *)
Definition update_date (sdeps : SessionDeps) (incident : Incident)
    (incident_data : IncidentUpdate) : result string :=
  if truthy (u_date incident_data)
  then fromisoformat sdeps (or_empty (u_date incident_data))
  else Ok (date incident).

(** [IncidentService.update_incident] *)
Definition update_incident (vdeps : Deps) (sdeps : SessionDeps)
    (incident_id : UUID) (incident_data : IncidentUpdate) (user_id : UUID)
  : M (option Incident) :=
  try_except_sql
    (found <~ session_get sdeps incident_id ;;
     match found with
     | None => ret None
     | Some incident =>
         date <~ lift (update_date sdeps incident incident_data) ;;
         let incident := updated_incident sdeps incident incident_data date in
         session_add incident ;;;
         session_commit sdeps ;;;
         incident <~ session_refresh sdeps incident ;;
         try_except (update_incident_in_vector_store vdeps incident)
           (fun e =>
              logger Error
                "Vector store update failed, but incident was updated"
                (Some e)) ;;;
         ret (Some (_format_incident incident))
     end)
    (on_database_error "Database error in update_incident").

(** [IncidentService.delete_incident] *)
Definition delete_incident (vdeps : Deps) (sdeps : SessionDeps)
    (incident_id : UUID) : M bool :=
  try_except_sql
    (found <~ session_get sdeps incident_id ;;
     match found with
     | None => ret false
     | Some incident =>
         session_delete incident ;;;
         session_commit sdeps ;;;
         try_except (delete_incident_from_vector_store vdeps incident_id)
           (fun e =>
              logger Error
                "Vector store deletion failed, but incident was deleted"
                (Some e)) ;;;
         ret true
     end)
    (on_database_error "Database error in delete_incident").

End Service.

(** ** apps/analytics/routes.py: the similar-incidents route *)

Module Analytics.
Import VStore IncidentsVS Service.

(** An incident of the response: the formatted row and its
    [similarity_score]. *)
Record SimilarIncident : Type := mkSimilarIncident {
  inc_data : Incident;
  similarity_score : Scalar
}.

Record SimilarResponse : Type := mkSimilarResponse {
  sourceIncident : Incident;
  similarIncidents : list SimilarIncident;
  analysis : string
}.

(** What the route needs beyond the adapter and the session.
    [analyze_incident_similarities] is the method of [AnalyticsService]
    the route calls; its definition is not part of the sources at hand, so
    it is a parameter here. *)
Record RouteDeps : Type := mkRouteDeps {
  uuid_of_str : string -> result UUID;     (* UUID(text) *)
  format_scalar : Scalar -> string;
  analyze_incident_similarities :
    Incident -> list SimilarIncident -> result string
}.

(** [UUID(inc_meta["id"])] *)
Definition uuid_of_scalar (rdeps : RouteDeps) (v : Scalar) : result UUID :=
  match v with
  | SStr s => uuid_of_str rdeps s
  | SNum _ => Raise (AttributeError "replace")
  end.

(** The search query built from the source incident. *)
Definition search_query_of (rdeps : RouteDeps) (source_incident : Incident)
  : string :=
  String.concat ""
    [ "Type: "; type source_incident;
      ", District: ";
      format_scalar rdeps
        (scalar_or (location source_incident !! "district") "");
      ", Severity: "; severity source_incident ].

(** [inc["id"] != str(incident_uuid)] *)
Definition not_source (vdeps : Deps) (incident_uuid : UUID)
    (inc : SimilarMeta) : bool :=
  negb (scalar_eqb (m_id inc) (SStr (str_of_uuid vdeps incident_uuid))).

(** The lookup proper: ask for [k + 1] neighbours, drop the source, keep
    the first [k]. *)
Definition similar_incidents_meta (vdeps : Deps) (rdeps : RouteDeps)
    (source_incident : Incident) (incident_uuid : UUID) (k : Z)
  : M (list SimilarMeta) :=
  let search_query := search_query_of rdeps source_incident in
  similar_incidents_meta <~
    get_similar_incidents vdeps search_query None (k + 1) ;;
  ret (slice_to k
         (List.filter (not_source vdeps incident_uuid) similar_incidents_meta)).

(** The loop that resolves the ids to rows of the primary store. *)
Fixpoint similar_incidents_data (sdeps : SessionDeps) (rdeps : RouteDeps)
    (metas : list SimilarMeta) : M (list SimilarIncident) :=
  match metas with
  | [] => ret []
  | inc_meta :: rest =>
      inc_uuid <~ lift (uuid_of_scalar rdeps (m_id inc_meta)) ;;
      inc <~ session_get sdeps inc_uuid ;;
      tail <~ similar_incidents_data sdeps rdeps rest ;;
      match inc with
      | Some row =>
          ret (mkSimilarIncident (_format_incident row) (m_score inc_meta)
                 :: tail)
      | None => ret tail
      end
  end.

(** [get_similar_incidents_analysis] *)
Definition get_similar_incidents_analysis (vdeps : Deps)
    (sdeps : SessionDeps) (rdeps : RouteDeps) (incident_id : string) (k : Z)
  : M SimilarResponse :=
  try_except
    (incident_uuid <~
       try_except (lift (uuid_of_str rdeps incident_id))
         (fun e =>
            match e with
            | ValueError _ => throw (HTTPException 400 "invalid_id")
            | _ => throw e
            end) ;;
     source <~ session_get sdeps incident_uuid ;;
     match source with
     | None => throw (HTTPException 404 "not_found")
     | Some source_incident =>
         metas <~ similar_incidents_meta vdeps rdeps source_incident
                    incident_uuid k ;;
         data <~ similar_incidents_data sdeps rdeps metas ;;
         text <~ lift (analyze_incident_similarities rdeps source_incident
                         data) ;;
         ret (mkSimilarResponse source_incident data text)
     end)
    (fun e =>
       match e with
       | HTTPException _ _ => throw e
       | _ => throw (HTTPException 500 "similarity_error")
       end).



End Analytics.

(** ** Concrete stores and sessions used in the examples *)

Module ServiceFixtures.
Import VStore IncidentsVS Service Analytics.

(** An embedding model that yields vectors of length 3. *)
Definition embed3 : string -> list Q := fun _ => [0%Q; 0%Q; 0%Q].

Definition decimal_of_uuid (u : UUID) : string :=
  NilZero.string_of_uint (N.to_uint u).

Definition uuid_of_decimal (s : string) : result UUID :=
  match NilZero.uint_of_string s with
  | Some d => Ok (N.of_uint d)
  | None => Raise (ValueError "badly formed UUID string")
  end.

(** An unreachable store: every method raises. *)
Definition failing_backend : Backend :=
  mkBackend
    (fun _ idx => (Raise (BackendError "IndexUnavailable"), idx))
    (fun _ _ idx => (Raise (BackendError "IndexUnavailable"), idx))
    (fun _ _ _ _ => Raise (BackendError "IndexUnavailable")).

Definition vdeps_ok : Deps :=
  mkDeps (Some "postgresql://caps") (fun _ => Ok (unchecked_backend embed3))
    (fun _ => "{}") decimal_of_uuid.

Definition vdeps_down : Deps :=
  mkDeps (Some "postgresql://caps") (fun _ => Ok failing_backend)
    (fun _ => "{}") decimal_of_uuid.

Definition sdeps_ok : SessionDeps :=
  mkSessionDeps None None None 7%N "2024-05-01T10:00:00" (fun s => Ok s).

Definition rdeps_ok : RouteDeps :=
  mkRouteDeps uuid_of_decimal
    (fun v => match v with SStr s => s | SNum _ => "0" end)
    (fun _ _ => Ok "analysis").

Definition world0 : World := mkWorld [] ∅ [] [].


Definition sample_document : Document :=
  mkDocument "Type: theft" {[ "id" := SStr "7" ]}.

Definition sample_create : IncidentCreate :=
  mkIncidentCreate "Bike theft" None "theft" "2024-05-01T09:00:00"
    {[ "district" := SStr "north" ]} "low" "open" None None None None None.

Definition sample_incident : Incident :=
  new_incident vdeps_down sdeps_ok sample_create 1%N "2024-05-01T09:00:00".

Definition sample_update : IncidentUpdate :=
  mkIncidentUpdate (Some "Bike theft, solved") None None None None None
    (Some "closed") None None None None None None.

(** A world whose table holds the sample incident. *)
Definition world1 : World :=
  mkWorld [] {[ 7%N := sample_incident ]} [] [].

(** A world whose index holds the sample incident and two others. *)
Definition incident_with_id (u : UUID) : Incident :=
  mkIncident u "Bike theft" None "theft" "2024-05-01T09:00:00"
    {[ "district" := SStr "north" ]} "low" "open" None None None None None
    None "2024-05-01T10:00:00" "2024-05-01T10:00:00".

Definition world3 : World :=
  mkWorld
    (rows_of embed3 []
       (map (fun u => incident_to_document vdeps_ok (incident_with_id u))
            [7%N; 8%N; 9%N]))
    (list_to_map (map (fun u => (u, incident_with_id u)) [7%N; 8%N; 9%N]))
    [] [].

End ServiceFixtures.

(** ** main.py: index set-up and the weighting strategies *)

Module MainMore.
Import Fusion.

(** [str(i)] for an index [i] of [range(len(df))]. *)
Definition str_of_nat (i : nat) : string :=
  NilZero.string_of_uint (N.to_uint (N.of_nat i)).

(** The columns of the data frame that [setup_chroma_db] reads. *)
Record Columns (Row : Type) : Type := mkColumns {
  Crime_Type : Row -> string;
  Neighborhood : Row -> string;
  Date_ymd : Row -> string;             (* date.strftime("%Y-%m-%d") *)
  Time_of_Day : Row -> string;
  column : string -> Row -> string      (* df[name] *)
}.
Arguments Crime_Type {Row}.
Arguments Neighborhood {Row}.
Arguments Date_ymd {Row}.
Arguments Time_of_Day {Row}.
Arguments column {Row}.

(** The arguments of one [collection.add] call. *)
Record AddCall : Type := mkAddCall {
  add_embeddings : list Embedding;
  add_texts : list string;
  add_metadatas : list (list (string * string));
  add_ids : list string
}.

(** [context_type.replace('full_context', 'contextual_description')] on
    the five context types of the loop. *)
Definition document_column (context_type : string) : string :=
  if String.eqb context_type "full_context" then "contextual_description"
  else context_type.

Definition context_types : list string :=
  [ "full_context"; "geo_context"; "temporal_context";
    "environmental_context"; "socioeconomic_context" ].

(** What [setup_chroma_db] adds to the collection of one context type. *)
Definition setup_add {Row} (cols : Columns Row) (df : list Row)
    (embeddings : string -> list Embedding) (context_type : string)
  : AddCall :=
  mkAddCall
    (embeddings context_type)
    (map (column cols (document_column context_type)) df)
    (imap (fun i row =>
             [ ("id", str_of_nat i);
               ("crime_type", Crime_Type cols row);
               ("neighborhood", Neighborhood cols row);
               ("date", Date_ymd cols row);
               ("time_of_day", Time_of_Day cols row) ]) df)
    (map str_of_nat (seq 0 (length df))).

(** The weights [crime_rag_interface] passes for the strategy typed in. *)
Definition strategy_weights (strategy : string)
  : option (list (string * Q)) :=
  if String.eqb strategy "2" then
    Some [ ("geo_context", (6 # 10)%Q); ("full_context", (2 # 10)%Q);
           ("temporal_context", (1 # 10)%Q);
           ("environmental_context", (5 # 100)%Q);
           ("socioeconomic_context", (5 # 100)%Q) ]
  else if String.eqb strategy "3" then
    Some [ ("temporal_context", (6 # 10)%Q); ("full_context", (2 # 10)%Q);
           ("geo_context", (1 # 10)%Q);
           ("environmental_context", (5 # 100)%Q);
           ("socioeconomic_context", (5 # 100)%Q) ]
  else if String.eqb strategy "4" then
    Some [ ("environmental_context", (6 # 10)%Q); ("full_context", (2 # 10)%Q);
           ("geo_context", (1 # 10)%Q);
           ("temporal_context", (5 # 100)%Q);
           ("socioeconomic_context", (5 # 100)%Q) ]
  else if String.eqb strategy "5" then
    Some [ ("socioeconomic_context", (6 # 10)%Q); ("full_context", (2 # 10)%Q);
           ("geo_context", (1 # 10)%Q);
           ("temporal_context", (5 # 100)%Q);
           ("environmental_context", (5 # 100)%Q) ]
  else None.

(** The retrieval step of [crime_rag_interface]. *)
Definition interface_query {Row} (env : Env) (query : string)
    (df : list Row) (strategy : string) : result (list Row) :=
  multi_context_query env query df (strategy_weights strategy) 5.

(** An index of three records for each of the five context types. *)
Definition env_five : Env :=
  mkEnv (fun _ => Ok [])
    (list_to_map
       (map (fun name =>
               (name,
                Fixtures.fixed_collection
                  [("0", (1 # 10)%Q); ("1", (5 # 10)%Q); ("2", (9 # 10)%Q)]))
            context_types)).

Definition rs_five : list QueryResult :=
  map (fun _ => mkQueryResult ["0"; "1"; "2"]
                  [(1 # 10)%Q; (5 # 10)%Q; (9 # 10)%Q]) context_types.

(** A data frame of three rows whose columns are the row text itself. *)
Definition text_columns : Columns string :=
  mkColumns string (fun r => r) (fun r => r) (fun r => r) (fun r => r)
    (fun _ r => r).



End MainMore.

(** ** core/rag/vectore_store.py: the shared default store *)

Module StoreMore.
Import VStore.

(** [VectorStore.__init__]: [self.config = config or VectorStoreConfig()]. *)
Definition new_vector_store (database_url : option string)
    (connect : Config -> result Backend) (config : option Config)
  : result VectorStore :=
  cfg <- match config with
         | Some c => Ok c
         | None => VectorStoreConfig database_url "caps_docs"
                     "models/text-embedding-004" 768
         end ;;
  Ok (mkVectorStore cfg (connect cfg)).

(** [get_vector_store(config)]: the result and the module-level
    [default_vector_store] afterwards. *)
Definition get_vector_store (database_url : option string)
    (connect : Config -> result Backend) (config : option Config)
    (default_vector_store : option VectorStore)
  : result VectorStore * option VectorStore :=
  match default_vector_store with
  | None =>
      match new_vector_store database_url connect config with
      | Ok store => (Ok store, Some store)
      | Raise e => (Raise e, None)
      end
  | Some store =>
      match config with
      | Some _ =>
          (new_vector_store database_url connect config, Some store)
      | None => (Ok store, Some store)
      end
  end.

(** Successive calls of [get_vector_store]: the results, and the default
    store at the end. *)
Fixpoint get_vector_stores (database_url : option string)
    (connect : Config -> result Backend) (configs : list (option Config))
    (default_vector_store : option VectorStore)
  : list (result VectorStore) * option VectorStore :=
  match configs with
  | [] => ([], default_vector_store)
  | config :: rest =>
      let '(r, d) :=
        get_vector_store database_url connect config default_vector_store in
      let '(rs, d') := get_vector_stores database_url connect rest d in
      (r :: rs, d')
  end.

(** The configuration and the store [get_incident_vector_store] builds
    when [DATABASE_URL] is [url]. *)
Definition incident_config (url : string) : Config :=
  mkConfig "incidents" "models/text-embedding-004" 768 true url.

Definition incident_store (deps : IncidentsVS.Deps) (url : string)
  : VectorStore :=
  mkVectorStore (incident_config url)
    (IncidentsVS.pg_connect deps (incident_config url)).

(** The item [get_similar_incidents] builds from the document of an
    incident. *)
Definition meta_of_incident (deps : IncidentsVS.Deps) (incident : Incident)
  : IncidentsVS.SimilarMeta :=
  IncidentsVS.mkSimilarMeta
    (SStr (IncidentsVS.str_of_uuid deps (id incident)))
    (SNum 1%Q)
    (SStr (type incident))
    (SStr (date incident))
    (SStr (severity incident))
    (IncidentsVS.scalar_or (location incident !! "district") "unknown").

(** The metadata keys [get_similar_incidents] reads with [doc.metadata[key]]. *)
Definition required_keys : list string :=
  ["id"; "type"; "date"; "severity"; "district"].

(** The filter [get_similar_incidents] passes to the search. *)
Definition search_filter_of (filters : option Filter) : Filter :=
  match filters with
  | Some f => if decide (f = ∅) then ∅ else f
  | None => ∅
  end.

(** A world whose index holds one document without a ["type"] key. *)
Definition world_bad : World :=
  mkWorld
    (rows_of ServiceFixtures.embed3 [] [ServiceFixtures.sample_document])
    ∅ [] [].

(** A computation that at most appends to the log. *)
Definition only_logs {A} (m : M A) : Prop :=
  forall w, exists entries,
    (m w).2 = mkWorld (index w) (db w) (pending w) (log w ++ entries).

(** The world with another index. *)
Definition with_index (w : World) (idx : Index) : World :=
  mkWorld idx (db w) (pending w) (log w).

(** The world with more log entries. *)
Definition with_logs (w : World) (entries : list LogEntry) : World :=
  mkWorld (index w) (db w) (pending w) (log w ++ entries).

End StoreMore.

(** ** apps/incidents/services.py: reading, and core/utils/common.py *)

Module ServiceMore.
Import VStore IncidentsVS Service.

(** [IncidentService.get_incident] *)
Definition get_incident (sdeps : SessionDeps) (incident_id : UUID)
  : M (option Incident) :=
  try_except_sql
    (found <~ session_get sdeps incident_id ;;
     match found with
     | None => ret None
     | Some incident => ret (Some (_format_incident incident))
     end)
    (fun msg =>
       logger Error "Database error in get_incident"
         (Some (SQLAlchemyError msg)) ;;;
       throw (ValueError ("Database error: " ++ msg)%string)).

(** The world after a failed database call was handled: the session's
    unit of work is dropped, the error is logged, the table and the index
    are as before. *)
Definition rolled_back (w : World) (entry : LogEntry) : World :=
  mkWorld (index w) (db w) [] (log w ++ [entry]).

(** Session dependencies whose commit fails. *)
Definition sdeps_commit_fails : SessionDeps :=
  mkSessionDeps None (Some "connection lost") None 7%N "2024-05-01T10:00:00"
    (fun s => Ok s).

(** Session dependencies that reject every date text. *)
Definition sdeps_bad_date : SessionDeps :=
  mkSessionDeps None None None 7%N "2024-05-01T10:00:00"
    (fun s => Raise (ValueError "Invalid isoformat string")).





End ServiceMore.

(** ** apps/incidents/routes.py *)

Module IncidentRoutes.
Import VStore IncidentsVS Service ServiceMore.

(** [str(e).startswith("Database error:")] *)
Definition is_database_error (msg : string) : bool :=
  String.prefix "Database error:" msg.

(** The [except ValueError] / [except Exception] clauses of the get,
    update and delete routes; [what] and [name] are the words that differ
    in their log messages. *)
Definition route_handler {A} (what name : string) (e : exn) : M A :=
  match e with
  | ValueError _ =>
      logger Error ("Database error " ++ what ++ " incident")%string
        (Some e) ;;;
      throw (HTTPException 500 "database_error")
  | _ =>
      logger Error ("Unexpected error in " ++ name)%string (Some e) ;;;
      throw (HTTPException 500 "server_error")
  end.

(** [get_incident] (GET /{incident_id}) *)
Definition get_incident_route (sdeps : SessionDeps) (incident_id : UUID)
  : M Incident :=
  try_except
    (incident <~ get_incident sdeps incident_id ;;
     match incident with
     | None => throw (HTTPException 404 "not_found")
     | Some row => ret row
     end)
    (route_handler "getting" "get_incident").

(** [create_incident] (POST /) *)
Definition create_incident_route (vdeps : Deps) (sdeps : SessionDeps)
    (incident_data : IncidentCreate) (user_id : UUID) : M Incident :=
  try_except
    (create_incident vdeps sdeps incident_data user_id)
    (fun e =>
       match e with
       | ValueError msg =>
           if is_database_error msg then
             logger Error "Database error creating incident" (Some e) ;;;
             throw (HTTPException 500 "database_error")
           else throw (HTTPException 400 "validation_error")
       | _ =>
           logger Error "Unexpected error in create_incident" (Some e) ;;;
           throw (HTTPException 500 "server_error")
       end).

(** [update_incident] (PUT /{incident_id}) *)
Definition update_incident_route (vdeps : Deps) (sdeps : SessionDeps)
    (incident_id : UUID) (incident_data : IncidentUpdate) (user_id : UUID)
  : M (option Incident) :=
  try_except
    (incident <~ get_incident sdeps incident_id ;;
     match incident with
     | None => throw (HTTPException 404 "not_found")
     | Some _ => update_incident vdeps sdeps incident_id incident_data user_id
     end)
    (route_handler "updating" "update_incident").

(** [delete_incident] (DELETE /{incident_id}) *)
Definition delete_incident_route (vdeps : Deps) (sdeps : SessionDeps)
    (incident_id : UUID) : M unit :=
  try_except
    (incident <~ get_incident sdeps incident_id ;;
     match incident with
     | None => throw (HTTPException 404 "not_found")
     | Some _ =>
         deleted <~ delete_incident vdeps sdeps incident_id ;;
         if deleted : bool then ret tt
         else throw (HTTPException 500 "deletion_error")
     end)
    (route_handler "deleting" "delete_incident").

(** The outcome is a return or an [HTTPException]. *)
Definition http_only {A} (r : result A) : Prop :=
  match r with
  | Ok _ => True
  | Raise (HTTPException _ _) => True
  | Raise _ => False
  end.

End IncidentRoutes.

(** ** Proofs about the fusion loop *)

Module FusionFacts.
Import Fusion.

Lemma bind_ok {A B} (r : result A) (k : A -> result B) a :
  r = Ok a -> bind r k = k a.
Proof. intros ->. reflexivity. Qed.

Lemma bind_raise {A B} (r : result A) (k : A -> result B) e :
  r = Raise e -> bind r k = Raise e.
Proof. intros ->. reflexivity. Qed.

Lemma raises_bind {A B} (r : result A) (k : A -> result B) :
  raises r -> raises (bind r k).
Proof. intros [e ->]. exists e. reflexivity. Qed.

Lemma raises_not_ok {A} (r : result A) a : raises r -> r <> Ok a.
Proof. intros [e ->]. discriminate. Qed.

(** [for_each] raises as soon as one iteration raises, whatever the state
    it is entered in. *)
Lemma for_each_raises {A S} (body : S -> A -> result S) xs x :
  In x xs -> (forall s, raises (body s x)) ->
  forall s, raises (for_each body xs s).
Proof.
  induction xs as [|y xs IH]; intros Hin Hx s; [destruct Hin|].
  simpl. destruct Hin as [->|Hin].
  - apply raises_bind, Hx.
  - destruct (body s y) as [s'|e] eqn:E; simpl.
    + apply IH; assumption.
    + exists e. reflexivity.
Qed.

(** *** The dictionary *)

Lemma eqb_decide (a b : string) : String.eqb a b = bool_decide (a = b).
Proof.
  destruct (String.eqb_spec a b) as [->|Hne].
  - symmetry. apply bool_decide_eq_true. reflexivity.
  - symmetry. apply bool_decide_eq_false. exact Hne.
Qed.

Lemma dict_get_set d k v k' x :
  dict_get (dict_set d k v) k' x
  = if String.eqb k k' then v else dict_get d k' x.
Proof.
  induction d as [|[k0 v0] d IH]; simpl.
  - reflexivity.
  - destruct (String.eqb_spec k0 k) as [->|Hne]; simpl.
    + destruct (String.eqb k k'); reflexivity.
    + rewrite IH. destruct (String.eqb_spec k0 k') as [->|Hne'].
      * destruct (String.eqb_spec k k') as [->|_]; [congruence|reflexivity].
      * reflexivity.
Qed.



Lemma dict_set_keys d k v :
  map fst (dict_set d k v) = add_key (map fst d) k.
Proof.
  unfold add_key. induction d as [|[k0 v0] d IH]; simpl.
  - reflexivity.
  - destruct (String.eqb_spec k0 k) as [->|Hne]; simpl.
    + rewrite bool_decide_eq_true_2 by apply list_elem_of_here. reflexivity.
    + rewrite IH. destruct (bool_decide (k ∈ map fst d)) eqn:E.
      * apply bool_decide_eq_true in E.
        rewrite bool_decide_eq_true_2 by (apply list_elem_of_further, E).
        reflexivity.
      * apply bool_decide_eq_false in E.
        rewrite bool_decide_eq_false_2; [reflexivity|].
        intros H. apply elem_of_cons in H as [->|H]; [congruence|tauto].
Qed.

(** *** The maximum and the division *)

Lemma max_from_ge m l : (m <= max_from m l)%Q.
Proof.
  revert m. induction l as [|x l IH]; intros m; simpl.
  - apply Qle_refl.
  - destruct (Qle_bool x m) eqn:E.
    + apply IH.
    + eapply Qle_trans; [|apply IH].
      destruct (Qlt_le_dec m x) as [Hlt|Hle].
      * apply Qlt_le_weak, Hlt.
      * apply Qle_bool_iff in Hle. congruence.
Qed.

Lemma max_from_upper m l : Forall (fun x => (x <= max_from m l)%Q) l.
Proof.
  revert m. induction l as [|x l IH]; intros m; simpl; constructor.
  - destruct (Qle_bool x m) eqn:E.
    + apply Qle_bool_iff in E. eapply Qle_trans; [exact E|apply max_from_ge].
    + apply max_from_ge.
  - apply IH.
Qed.

Lemma max_dist_upper l : Forall (fun x => (x <= max_dist_of l)%Q) l.
Proof.
  destruct l as [|x l]; simpl; constructor.
  - apply max_from_ge.
  - apply max_from_upper.
Qed.

Lemma py_div_ok a b : ~ (b == 0)%Q -> py_div a b = Ok (a / b)%Q.
Proof.
  intros Hb. unfold py_div. destruct (Qeq_bool b 0) eqn:E; [|reflexivity].
  apply Qeq_bool_iff in E. contradiction.
Qed.

Lemma py_div_zero a b : (b == 0)%Q -> py_div a b = Raise ZeroDivisionError.
Proof.
  intros Hb. unfold py_div. apply Qeq_bool_iff in Hb. rewrite Hb. reflexivity.
Qed.

(** *** The inner loop *)

Lemma score_loop_spec dists mx w :
  ~ (mx == 0)%Q ->
  forall doc_ids i d,
    i + length doc_ids <= length dists ->
    exists d',
      score_loop dists mx w i doc_ids d = Ok d'
      /\ map fst d' = first_seen (map fst d) doc_ids
      /\ forall k,
           (dict_get d' k 0 ==
            dict_get d k 0 + contrib doc_ids (drop i dists) mx w k)%Q.
Proof.
  intros Hmx. induction doc_ids as [|doc_id rest IH]; intros i d Hlen.
  - exists d. repeat split. intros k. simpl. ring.
  - simpl in Hlen.
    destruct (lookup_lt_is_Some_2 dists i) as [di Hdi]; [lia|].
    simpl. rewrite Hdi, (py_div_ok _ _ Hmx). simpl.
    destruct (IH (S i)
                (dict_set d doc_id (dict_get d doc_id 0 + (1 - di / mx) * w)%Q))
      as (d' & Hrun & Hkeys & Hval); [lia|].
    exists d'. split; [exact Hrun|]. split.
    + rewrite Hkeys, dict_set_keys. reflexivity.
    + intros k. rewrite Hval, dict_get_set.
      rewrite (drop_S _ _ _ Hdi). simpl.
      destruct (String.eqb_spec doc_id k) as [->|_]; ring.
Qed.

Lemma score_view_spec r w d :
  length (ids r) = length (distances r) ->
  ~ (max_dist_of (distances r) == 0)%Q ->
  exists d',
    score_view r w d = Ok d'
    /\ map fst d' = first_seen (map fst d) (ids r)
    /\ forall k, (dict_get d' k 0 == dict_get d k 0 + view_contrib r w k)%Q.
Proof.
  intros Hlen Hmx. unfold score_view, view_contrib.
  destruct (score_loop_spec (distances r) _ w Hmx (ids r) 0 d)
    as (d' & Hrun & Hkeys & Hval); [simpl; lia|].
  exists d'. repeat split; assumption.
Qed.

(** A view without candidates leaves the scores as they are. *)
Lemma score_view_empty w d : score_view (mkQueryResult [] []) w d = Ok d.
Proof. reflexivity. Qed.

(** *** The outer loop *)

Lemma first_seen_app ks a b :
  first_seen ks (a ++ b) = first_seen (first_seen ks a) b.
Proof. unfold first_seen. apply fold_left_app. Qed.

Lemma scores_from_spec env q n weights rs :
  queried env q n weights rs ->
  Forall (fun r => length (ids r) = length (distances r)
                   /\ ~ (max_dist_of (distances r) == 0)%Q) rs ->
  forall d,
  exists d',
    for_each (process_view env q n) weights d = Ok d'
    /\ map fst d' = first_seen (map fst d) (concat (map ids rs))
    /\ forall k, (dict_get d' k 0 == dict_get d k 0 + fused_score weights rs k)%Q.
Proof.
  intros Hq. induction Hq as [|v r weights rs Hv Hq IH]; intros Hwf d.
  - exists d. repeat split. intros k. simpl. ring.
  - apply Forall_cons in Hwf as [[Hlen Hmx] Hwf].
    destruct (score_view_spec r v.2 d Hlen Hmx) as (d1 & Hrun1 & Hkeys1 & Hval1).
    destruct (IH Hwf d1) as (d' & Hrun & Hkeys & Hval).
    exists d'. split; [|split].
    + simpl. unfold process_view at 1. rewrite Hv. simpl.
      rewrite Hrun1. simpl. exact Hrun.
    + simpl. rewrite first_seen_app, <- Hkeys1. exact Hkeys.
    + intros k. rewrite Hval, Hval1. simpl. ring.
Qed.

(** *** Bounds on the fused score *)

Lemma contrib_absent doc_ids dists mx w k :
  k ∉ doc_ids -> (contrib doc_ids dists mx w k == 0)%Q.
Proof.
  revert dists. induction doc_ids as [|a doc_ids IH]; intros dists Hk.
  - reflexivity.
  - apply not_elem_of_cons in Hk as [Hne Hk].
    destruct dists as [|di dists]; simpl; [reflexivity|].
    destruct (String.eqb_spec a k) as [->|_]; [congruence|].
    rewrite IH by exact Hk. ring.
Qed.

Lemma term_bounds di mx w :
  (0 <= di)%Q -> (di <= mx)%Q -> (0 < mx)%Q -> (0 <= w)%Q ->
  (0 <= (1 - di / mx) * w <= w)%Q.
Proof.
  intros Hd Hle Hmx Hw.
  assert (H0 : (0 <= di / mx)%Q) by (apply Qle_shift_div_l; lra).
  assert (H1 : (di / mx <= 1)%Q) by (apply Qle_shift_div_r; lra).
  split; nra.
Qed.

Lemma contrib_bounds doc_ids dists mx w k :
  NoDup doc_ids ->
  Forall (fun di => (0 <= di)%Q /\ (di <= mx)%Q) dists ->
  (0 < mx)%Q -> (0 <= w)%Q ->
  (0 <= contrib doc_ids dists mx w k <= w)%Q.
Proof.
  intros Hnd Hds Hmx Hw. revert dists Hds.
  induction Hnd as [|a doc_ids Ha Hnd IH]; intros dists Hds.
  - simpl. lra.
  - destruct dists as [|di dists]; simpl; [lra|].
    apply Forall_cons in Hds as [[Hd0 Hd1] Hds].
    destruct (String.eqb_spec a k) as [->|_].
    + rewrite (contrib_absent _ _ _ _ _ Ha).
      pose proof (term_bounds di mx w Hd0 Hd1 Hmx Hw). lra.
    + specialize (IH dists Hds). lra.
Qed.

Lemma max_dist_pos l :
  Forall (fun di => (0 <= di)%Q) l -> ~ (max_dist_of l == 0)%Q ->
  (0 < max_dist_of l)%Q.
Proof.
  intros Hl Hne. destruct l as [|x l].
  - simpl. lra.
  - apply Forall_cons in Hl as [Hx _].
    pose proof (max_from_ge x l) as Hge. simpl in *.
    destruct (Qlt_le_dec 0 (max_from x l)) as [Hlt|Hle]; [exact Hlt|].
    exfalso. apply Hne. lra.
Qed.

Lemma view_contrib_bounds r w k :
  well_formed r -> (0 <= w)%Q -> (0 <= view_contrib r w k <= w)%Q.
Proof.
  intros [Hlen Hnd Hnn Hmx] Hw. unfold view_contrib.
  apply contrib_bounds; [exact Hnd| |apply max_dist_pos; assumption|exact Hw].
  pose proof (max_dist_upper (distances r)) as Hup.
  rewrite Forall_forall in *. intros x Hx. split; [apply Hnn|apply Hup]; exact Hx.
Qed.

Lemma sum_weights_nonneg weights :
  Forall (fun v : string * Q => (0 <= v.2)%Q) weights ->
  (0 <= sum_weights weights)%Q.
Proof.
  induction 1 as [|v weights Hv _ IH]; simpl; lra.
Qed.

Lemma fused_score_bounds weights rs k :
  Forall well_formed rs ->
  Forall (fun v : string * Q => (0 <= v.2)%Q) weights ->
  (0 <= fused_score weights rs k <= sum_weights weights)%Q.
Proof.
  intros Hrs Hws. revert rs Hrs.
  induction Hws as [|v weights Hv Hws IH]; intros rs Hrs.
  - simpl. lra.
  - destruct rs as [|r rs]; simpl.
    + pose proof (sum_weights_nonneg weights Hws). lra.
    + apply Forall_cons in Hrs as [Hr Hrs].
      pose proof (view_contrib_bounds r v.2 k Hr Hv).
      specialize (IH rs Hrs). lra.
Qed.

(** *** Scaling the weight vector *)




(** *** The stable descending sort *)

Lemma insert_desc_perm x l : Permutation (insert_desc x l) (x :: l).
Proof.
  induction l as [|y l IH]; simpl.
  - reflexivity.
  - destruct (Qle_bool y.2 x.2).
    + reflexivity.
    + rewrite IH. apply perm_swap.
Qed.

Lemma sorted_desc_perm l : Permutation (sorted_desc l) l.
Proof.
  induction l as [|x l IH]; simpl.
  - reflexivity.
  - rewrite insert_desc_perm. constructor. exact IH.
Qed.

Lemma insert_desc_sorted x l :
  StronglySorted desc l -> StronglySorted desc (insert_desc x l).
Proof.
  induction 1 as [|y l Hl IH Hy]; simpl.
  - repeat constructor.
  - destruct (Qle_bool y.2 x.2) eqn:E.
    + apply Qle_bool_iff in E. constructor.
      * constructor; assumption.
      * constructor; [exact E|].
        eapply Forall_impl; [exact Hy|].
        intros z Hz. unfold desc in *. lra.
    + constructor; [exact IH|].
      apply (Permutation_Forall (Permutation_sym (insert_desc_perm x l))).
      constructor; [|exact Hy].
      unfold desc. destruct (Qlt_le_dec x.2 y.2) as [Hlt|Hle].
      * lra.
      * apply Qle_bool_iff in Hle. congruence.
Qed.

Lemma sorted_desc_sorted l : StronglySorted desc (sorted_desc l).
Proof.
  induction l as [|x l IH]; simpl.
  - constructor.
  - apply insert_desc_sorted, IH.
Qed.

(** Stability: the items of any one score keep the order they had. *)
Lemma insert_desc_stable s x l :
  List.filter (has_score s) (insert_desc x l)
  = List.filter (has_score s) (x :: l).
Proof.
  induction l as [|y l IH]; [reflexivity|].
  simpl insert_desc. destruct (Qle_bool y.2 x.2) eqn:E; [reflexivity|].
  simpl in *. rewrite IH.
  destruct (has_score s y) eqn:Ey; [|reflexivity].
  destruct (has_score s x) eqn:Ex; [|reflexivity].
  exfalso. unfold has_score in *.
  apply Qeq_bool_iff in Ex, Ey.
  assert (H : (y.2 <= x.2)%Q) by lra.
  apply Qle_bool_iff in H. congruence.
Qed.

Lemma sorted_desc_stable s l :
  List.filter (has_score s) (sorted_desc l) = List.filter (has_score s) l.
Proof.
  induction l as [|x l IH]; [reflexivity|].
  simpl sorted_desc. rewrite insert_desc_stable. simpl. rewrite IH. reflexivity.
Qed.


(** *** What a successful run tells about the views *)

Lemma score_loop_keys dists mx w doc_ids :
  forall i d d',
    score_loop dists mx w i doc_ids d = Ok d' ->
    map fst d' = first_seen (map fst d) doc_ids.
Proof.
  induction doc_ids as [|doc_id rest IH]; intros i d d' Hrun; simpl in Hrun.
  - injection Hrun as <-. reflexivity.
  - destruct (dists !! i) as [di|]; [|discriminate].
    destruct (py_div di mx) as [ratio|e]; [|discriminate]. simpl in Hrun.
    apply IH in Hrun. rewrite Hrun, dict_set_keys. reflexivity.
Qed.

Lemma scores_ok_inv env q n weights :
  forall d d',
    for_each (process_view env q n) weights d = Ok d' ->
    exists rs,
      queried env q n weights rs
      /\ map fst d' = first_seen (map fst d) (concat (map ids rs)).
Proof.
  induction weights as [|v weights IH]; intros d d' Hrun; simpl in Hrun.
  - injection Hrun as <-. exists []. split; [constructor|reflexivity].
  - unfold process_view at 1 in Hrun.
    destruct (query_view env q n v.1) as [r|e] eqn:Hv; [|discriminate].
    simpl in Hrun.
    destruct (score_view r v.2 d) as [d1|e] eqn:Hs; [|discriminate].
    simpl in Hrun. apply IH in Hrun as (rs & Hq & Hkeys).
    exists (r :: rs). split; [constructor; assumption|].
    simpl. rewrite first_seen_app.
    unfold score_view in Hs. apply score_loop_keys in Hs. rewrite <- Hs.
    exact Hkeys.
Qed.

(** The scores depend on the environment only through what the queried
    views return. *)
Lemma scores_determined env env' q q' n n' weights rs :
  queried env q n weights rs -> queried env' q' n' weights rs ->
  forall d,
    for_each (process_view env q n) weights d
    = for_each (process_view env' q' n') weights d.
Proof.
  intros H. revert env' q' n'.
  induction H as [|v r weights rs Hv H IH]; intros env' q' n' H' d.
  - reflexivity.
  - apply Forall2_cons in H' as [Hv' H'].
    simpl. unfold process_view at 1 3. rewrite Hv, Hv'. simpl.
    destruct (score_view r v.2 d) as [d1|e]; simpl; [|reflexivity].
    apply IH. exact H'.
Qed.

(** *** A single view *)







(** *** A result set at distance zero *)

Lemma max_from_zero m l :
  (m == 0)%Q -> Forall (fun x => (x == 0)%Q) l -> (max_from m l == 0)%Q.
Proof.
  revert m. induction l as [|x l IH]; intros m Hm Hl; simpl.
  - exact Hm.
  - apply Forall_cons in Hl as [Hx Hl].
    destruct (Qle_bool x m); apply IH; assumption.
Qed.

Lemma score_view_zero_raises r w d :
  ids r <> [] -> distances r <> [] ->
  Forall (fun x => (x == 0)%Q) (distances r) ->
  score_view r w d = Raise ZeroDivisionError.
Proof.
  destruct r as [[|a doc_ids] [|d0 dists]]; simpl; intros Hi Hd Hz;
    try congruence.
  apply Forall_cons in Hz as [H0 Hz].
  unfold score_view. simpl.
  rewrite (py_div_zero d0 _ (max_from_zero d0 dists H0 Hz)). reflexivity.
Qed.

(** *** All weights zero *)

Lemma contrib_zero_weight doc_ids : forall dists mx w k,
  (w == 0)%Q -> (contrib doc_ids dists mx w k == 0)%Q.
Proof.
  induction doc_ids as [|a doc_ids IH]; intros [|di dists] mx w k Hw; simpl;
    try reflexivity.
  rewrite (IH dists mx w k Hw). destruct (String.eqb a k).
  - rewrite Hw. ring.
  - ring.
Qed.

Lemma fused_score_zero_weights weights : forall rs k,
  Forall (fun v : string * Q => (v.2 == 0)%Q) weights ->
  (fused_score weights rs k == 0)%Q.
Proof.
  induction weights as [|v weights IH]; intros [|r rs] k Hz; simpl;
    try reflexivity.
  apply Forall_cons in Hz as [Hv Hz].
  rewrite (IH rs k Hz). unfold view_contrib.
  rewrite (contrib_zero_weight _ _ _ _ k Hv). ring.
Qed.

(** *** The steps after the loop *)


Lemma query_raises_top_docs env q len weights n :
  raises (multi_context_scores env q (Z.of_nat len) (weights_or_default weights)) ->
  raises (multi_context_top_docs env q len weights n).
Proof. intros H. unfold multi_context_top_docs. apply raises_bind, H. Qed.

Lemma query_raises {Row} env q (df : list Row) weights n :
  raises (multi_context_scores env q (Z.of_nat (length df))
            (weights_or_default weights)) ->
  raises (multi_context_query env q df weights n).
Proof.
  intros H. unfold multi_context_query, multi_context_ids.
  apply raises_bind, raises_bind, query_raises_top_docs, H.
Qed.

(** *** Scores that are all zero *)






End FusionFacts.

(** ** Multi-context retrieval: fused scores, failures and ordering *)

Module FusionClaims.
Import Fusion Fixtures FusionFacts.








(** C3 (amended): when the embed or index-query step of any view named by
    the weight vector raises, the whole retrieval raises; no view is set
    aside and no partial result is returned.  The exception reaches the
    caller, so the outcome differs from an empty result. *)
Theorem C3_view_failure_aborts_retrieval {Row} env q (df : list Row)
    weights n v :
  In v (weights_or_default weights) ->
  raises (query_view env q (Z.of_nat (length df)) v.1) ->
  raises (multi_context_query env q df weights n)
  /\ multi_context_query env q df weights n <> Ok [].
Proof.
  intros Hin Hv.
  assert (H : raises (multi_context_query env q df weights n)).
  { apply query_raises. unfold multi_context_scores.
    apply (for_each_raises _ _ v Hin).
    intros d. unfold process_view. apply raises_bind, Hv. }
  split; [exact H|apply raises_not_ok, H].
Qed.

Lemma C3_view_failure_witness :
  raises (multi_context_query env_outage "q" rows3
            (Some [("full_context", 1%Q); ("geo_context", 1%Q)]) 2)
  /\ multi_context_query env_outage "q" rows3
       (Some [("full_context", 1%Q); ("geo_context", 1%Q)]) 2 <> Ok [].
Proof.
  apply (C3_view_failure_aborts_retrieval env_outage "q" rows3
           (Some [("full_context", 1%Q); ("geo_context", 1%Q)]) 2%Z
           ("geo_context", 1%Q)).
  - simpl. right. left. reflexivity.
  - exists (BackendError "IndexUnavailable"). vm_compute. reflexivity.
Defined.

(** C3 fails as stated: with one healthy and one unreachable view the
    retrieval raises the index error instead of returning the healthy
    view's ranking. *)
Lemma C3_counterexample :
  multi_context_query env_outage "q" rows3
    (Some [("full_context", 1%Q); ("geo_context", 1%Q)]) 2
  = Raise (BackendError "IndexUnavailable")
  /\ ~ (exists rows,
         multi_context_query env_outage "q" rows3
           (Some [("full_context", 1%Q); ("geo_context", 1%Q)]) 2
         = Ok rows).
Proof.
  split; [vm_compute; reflexivity|].
  intros [rows H]. vm_compute in H. discriminate.
Qed.




(** C5 (amended): the results are the first [n_results] items of the score
    dictionary sorted by fused score, highest first.  The sort is stable and
    looks at the score alone, so records of equal fused score stay in the
    order in which they entered the dictionary, which is the order of their
    first appearance over the views as queried; neither the number of
    contributing views nor the record id takes part.  The result is
    determined by what the queried views return. *)
Theorem C5_sorted_by_score_ties_by_first_appearance env q len weights n top :
  multi_context_top_docs env q len weights n = Ok top ->
  exists rs d,
    queried env q (Z.of_nat len) (weights_or_default weights) rs
    /\ multi_context_scores env q (Z.of_nat len) (weights_or_default weights)
       = Ok d
    /\ map fst d = first_seen [] (concat (map ids rs))
    /\ top = slice_to n (sorted_desc d)
    /\ Permutation (sorted_desc d) d
    /\ StronglySorted desc (sorted_desc d)
    /\ (forall s, List.filter (has_score s) (sorted_desc d)
                  = List.filter (has_score s) d)
    /\ (forall env' q',
         queried env' q' (Z.of_nat len) (weights_or_default weights) rs ->
         multi_context_top_docs env' q' len weights n = Ok top).
Proof.
  unfold multi_context_top_docs. intros Hrun.
  destruct (multi_context_scores env q (Z.of_nat len)
              (weights_or_default weights)) as [d|e] eqn:Hd; [|discriminate].
  simpl in Hrun. injection Hrun as <-.
  destruct (scores_ok_inv _ _ _ _ _ _ Hd) as (rs & Hq & Hkeys).
  exists rs, d. repeat split.
  - exact Hq.
  - exact Hkeys.
  - apply sorted_desc_perm.
  - apply sorted_desc_sorted.
  - intros s. apply sorted_desc_stable.
  - intros env' q' Hq'. unfold multi_context_scores in *.
    rewrite <- (scores_determined _ _ _ _ _ _ _ _ Hq Hq'), Hd. reflexivity.
Qed.

Lemma C5_sorted_witness :
  exists rs d,
    queried env_cross "q" (Z.of_nat 2)
      (weights_or_default (Some weights_scenario)) rs
    /\ multi_context_scores env_cross "q" (Z.of_nat 2)
         (weights_or_default (Some weights_scenario)) = Ok d
    /\ map fst d = first_seen [] (concat (map ids rs))
    /\ [("1", (2 # 4)%Q); ("0", (2 # 4)%Q)] = slice_to 2 (sorted_desc d)
    /\ Permutation (sorted_desc d) d
    /\ StronglySorted desc (sorted_desc d)
    /\ (forall s, List.filter (has_score s) (sorted_desc d)
                  = List.filter (has_score s) d)
    /\ (forall env' q',
         queried env' q' (Z.of_nat 2)
           (weights_or_default (Some weights_scenario)) rs ->
         multi_context_top_docs env' q' 2 (Some weights_scenario) 2
         = Ok [("1", (2 # 4)%Q); ("0", (2 # 4)%Q)]).
Proof.
  apply (C5_sorted_by_score_ties_by_first_appearance env_cross "q" 2
           (Some weights_scenario) 2%Z).
  vm_compute. reflexivity.
Defined.

(** C5 fails as stated: two records with the same fused score and the same
    number of contributing views are returned with the larger record id
    first. *)
Lemma C5_counterexample :
  exists top,
    multi_context_top_docs env_cross "q" 2 (Some weights_scenario) 2 = Ok top
    /\ map fst top = ["1"; "0"]
    /\ spec_ordered rs_cross top = false.
Proof. eexists. repeat split; vm_compute; reflexivity. Qed.

(** C9: a view whose result set is empty is scored without a division
    ([max_dist] is then 1), but a view whose non-empty result set has only
    zero distances makes [distances[i] / max_dist] divide by zero: scoring
    that view raises [ZeroDivisionError] and the whole retrieval raises. *)
Theorem C9_zero_distances_raise {Row} env q (df : list Row) weights n v r :
  In v (weights_or_default weights) ->
  query_view env q (Z.of_nat (length df)) v.1 = Ok r ->
  ids r <> [] -> distances r <> [] ->
  Forall (fun x => (x == 0)%Q) (distances r) ->
  raises (multi_context_query env q df weights n)
  /\ (forall w d, score_view r w d = Raise ZeroDivisionError)
  /\ (forall d, process_view env q (Z.of_nat (length df)) d v
                = Raise ZeroDivisionError)
  /\ max_dist_of [] = 1%Q
  /\ (forall w d, score_view (mkQueryResult [] []) w d = Ok d).
Proof.
  intros Hin Hv Hi Hd Hz.
  assert (Hs : forall w d, score_view r w d = Raise ZeroDivisionError).
  { intros w d. apply score_view_zero_raises; assumption. }
  assert (Hp : forall d, process_view env q (Z.of_nat (length df)) d v
                         = Raise ZeroDivisionError).
  { intros d. unfold process_view. rewrite Hv. simpl. apply Hs. }
  repeat split; try assumption.
  apply query_raises. unfold multi_context_scores.
  apply (for_each_raises _ _ v Hin).
  intros d. exists ZeroDivisionError. apply Hp.
Qed.

Lemma C9_zero_distances_witness :
  raises (multi_context_query env_exact "q" ["row0"]
            (Some [("full_context", 1%Q)]) 1)
  /\ (forall w d, score_view (mkQueryResult ["0"] [0%Q]) w d
                  = Raise ZeroDivisionError)
  /\ (forall d, process_view env_exact "q" (Z.of_nat (length ["row0"])) d
                  ("full_context", 1%Q)
                = Raise ZeroDivisionError)
  /\ max_dist_of [] = 1%Q
  /\ (forall w d, score_view (mkQueryResult [] []) w d = Ok d).
Proof.
  apply (C9_zero_distances_raise env_exact "q" ["row0"]
           (Some [("full_context", 1%Q)]) 1%Z ("full_context", 1%Q)
           (mkQueryResult ["0"] [0%Q])).
  - simpl. left. reflexivity.
  - vm_compute. reflexivity.
  - simpl. discriminate.
  - simpl. discriminate.
  - repeat constructor.
Defined.

End FusionClaims.

(** ** Proofs about the stores, the adapter and the services *)

Module ServiceFacts.
Import VStore IncidentsVS Service Analytics.

(** *** Running the monad *)

Lemma mbind_ok {A B} (m : M A) (k : A -> M B) w a w' :
  m w = (Ok a, w') -> mbind m k w = k a w'.
Proof. intros H. unfold mbind. rewrite H. reflexivity. Qed.

Lemma mbind_raise {A B} (m : M A) (k : A -> M B) w e w' :
  m w = (Raise e, w') -> mbind m k w = (Raise e, w').
Proof. intros H. unfold mbind. rewrite H. reflexivity. Qed.

Lemma try_except_ok {A} (m : M A) h w a w' :
  m w = (Ok a, w') -> try_except m h w = (Ok a, w').
Proof. intros H. unfold try_except. rewrite H. reflexivity. Qed.

Lemma try_except_raise {A} (m : M A) h w e w' :
  m w = (Raise e, w') -> try_except m h w = h e w'.
Proof. intros H. unfold try_except. rewrite H. reflexivity. Qed.

Lemma try_except_sql_ok {A} (m : M A) h w a w' :
  m w = (Ok a, w') -> try_except_sql m h w = (Ok a, w').
Proof. apply try_except_ok. Qed.

(** *** What leaves the incident table alone *)

Lemma keeps_ret {A} (a : A) : keeps_table (ret a).
Proof. intros w. split; reflexivity. Qed.

Lemma keeps_throw {A} e : keeps_table (@throw A e).
Proof. intros w. split; reflexivity. Qed.

Lemma keeps_lift {A} (r : result A) : keeps_table (lift r).
Proof. intros w. split; reflexivity. Qed.

Lemma keeps_logger lvl msg e : keeps_table (logger lvl msg e).
Proof. intros w. split; reflexivity. Qed.

Lemma keeps_on_index {A} (f : Index -> result A * Index) :
  keeps_table (on_index f).
Proof. intros w. unfold on_index. destruct (f (index w)). split; reflexivity. Qed.

Lemma keeps_bind {A B} (m : M A) (k : A -> M B) :
  keeps_table m -> (forall a, keeps_table (k a)) -> keeps_table (mbind m k).
Proof.
  intros Hm Hk w. unfold mbind. specialize (Hm w).
  destruct (m w) as [[a|e] w']; simpl in Hm.
  - destruct (Hk a w') as [H1 H2]. destruct Hm. split; congruence.
  - exact Hm.
Qed.

Lemma keeps_try {A} (m : M A) (h : exn -> M A) :
  keeps_table m -> (forall e, keeps_table (h e)) ->
  keeps_table (try_except m h).
Proof.
  intros Hm Hh w. unfold try_except. specialize (Hm w).
  destruct (m w) as [[a|e] w']; simpl in Hm.
  - exact Hm.
  - destruct (Hh e w') as [H1 H2]. destruct Hm. split; congruence.
Qed.

Ltac keeps :=
  repeat first
    [ apply keeps_ret | apply keeps_throw | apply keeps_lift
    | apply keeps_logger | apply keeps_on_index
    | apply keeps_bind | apply keeps_try
    | match goal with
      | |- forall _, _ => intro
      | |- keeps_table (match ?x with _ => _ end) => destruct x
      end ].


Lemma keeps_add_documents self documents :
  keeps_table (add_documents self documents).
Proof. unfold add_documents. keeps. Qed.

Lemma keeps_delete self ids filter : keeps_table (delete self ids filter).
Proof. unfold delete. keeps. Qed.

Lemma keeps_get_store deps : keeps_table (get_incident_vector_store deps).
Proof. unfold get_incident_vector_store. keeps. Qed.

Lemma keeps_add_incident deps incident :
  keeps_table (add_incident_to_vector_store deps incident).
Proof.
  unfold add_incident_to_vector_store, log_and_reraise.
  apply keeps_try; [apply keeps_bind; [apply keeps_get_store|]|]; keeps;
    try apply keeps_add_documents.
Qed.

Lemma keeps_update_incident deps incident :
  keeps_table (update_incident_in_vector_store deps incident).
Proof.
  unfold update_incident_in_vector_store, log_and_reraise.
  apply keeps_try; [apply keeps_bind; [apply keeps_get_store|]|]; keeps;
    try apply keeps_delete; try apply keeps_add_documents.
Qed.

Lemma keeps_delete_incident deps incident_id :
  keeps_table (delete_incident_from_vector_store deps incident_id).
Proof.
  unfold delete_incident_from_vector_store, log_and_reraise.
  apply keeps_try; [apply keeps_bind; [apply keeps_get_store|]|]; keeps;
    try apply keeps_delete.
Qed.




(** *** The session *)

Lemma committed_add_lookup w incident :
  db (committed w (PendingAdd incident)) !! id incident = Some incident.
Proof.
  unfold committed. simpl. rewrite fold_left_app. simpl.
  apply lookup_insert_eq.
Qed.

Lemma committed_delete_lookup w incident_id :
  db (committed w (PendingDelete incident_id)) !! incident_id = None.
Proof.
  unfold committed. simpl. rewrite fold_left_app. simpl.
  apply lookup_delete_eq.
Qed.

Lemma session_get_ok sdeps incident_id w :
  get_fault sdeps = None ->
  session_get sdeps incident_id w = (Ok (db w !! incident_id), w).
Proof. intros H. unfold session_get, fault. rewrite H. reflexivity. Qed.

(** add (or delete), commit: the unit of work is in the table. *)
Lemma enqueue_commit {A} sdeps op (k : M A) w :
  commit_fault sdeps = None ->
  (enqueue op ;;; session_commit sdeps ;;; k) w = k (committed w op).
Proof.
  intros H. unfold mbind, enqueue, session_commit, fault. rewrite H. reflexivity.
Qed.

Lemma refresh_committed {A} sdeps incident (k : Incident -> M A) w :
  refresh_fault sdeps = None ->
  (row <~ session_refresh sdeps incident ;; k row)
    (committed w (PendingAdd incident))
  = k incident (committed w (PendingAdd incident)).
Proof.
  intros H. unfold mbind at 1. unfold session_refresh, fault. rewrite H.
  unfold mbind, ret. rewrite committed_add_lookup. reflexivity.
Qed.

(** A sync step that raises inside the service's [try]/[except] is logged
    and the operation goes on to return. *)
Lemma sync_failure_swallowed {A} (sync : M unit) msg (x : A) w e ws :
  sync w = (Raise e, ws) ->
  (try_except sync (fun e => logger Error msg (Some e)) ;;; ret x) w
  = (Ok x, logged ws (mkLog Error msg (Some e))).
Proof.
  intros H. unfold mbind, try_except. rewrite H. reflexivity.
Qed.

Lemma db_logged w entry : db (logged w entry) = db w.
Proof. reflexivity. Qed.

(** *** The similar-incidents lookup *)

Lemma get_similar_total deps query filters k w :
  exists metas w', get_similar_incidents deps query filters k w = (Ok metas, w').
Proof.
  unfold get_similar_incidents, try_except.
  destruct (search_similar deps query filters k w) as [[metas|e] w'].
  - exists metas, w'. reflexivity.
  - eexists _, _. reflexivity.
Qed.





(** *** The route: from the items found to rows of the table *)

Lemma session_get_inv sdeps incident_id w r w' :
  session_get sdeps incident_id w = (Ok r, w') ->
  w' = w /\ r = db w !! incident_id.
Proof.
  unfold session_get, fault, mbind.
  destruct (get_fault sdeps); simpl; intros H; inversion H; auto.
Qed.



End ServiceFacts.

(** ** Vector-store wrapper, sync adapter and services: the claims *)

Module ServiceClaims.
Import VStore IncidentsVS Service Analytics ServiceFixtures ServiceFacts.

(** C6: when the commit (and the reload of the row) succeeds and the
    vector-store sync that follows raises, [create_incident],
    [update_incident] and [delete_incident] still return their normal
    result; the exception is logged as an error and goes no further, and
    the incident table is the committed one: the new or changed row is
    there, the deleted row is gone. *)
Theorem C6_sync_failure_keeps_commit vdeps sdeps :
  commit_fault sdeps = None ->
  refresh_fault sdeps = None ->
  get_fault sdeps = None ->
  (forall incident_data user_id w date e ws,
     fromisoformat sdeps (c_date incident_data) = Ok date ->
     let incident := new_incident vdeps sdeps incident_data user_id date in
     let entry :=
       mkLog Error "Vector store update failed, but incident was created"
         (Some e) in
     add_incident_to_vector_store vdeps incident
       (committed w (PendingAdd incident)) = (Raise e, ws) ->
     create_incident vdeps sdeps incident_data user_id w
     = (Ok (_format_incident incident), logged ws entry)
     /\ db (logged ws entry) = db (committed w (PendingAdd incident))
     /\ db (logged ws entry) !! id incident = Some incident)
  /\ (forall incident_id incident_data user_id w old date e ws,
       db w !! incident_id = Some old ->
       update_date sdeps old incident_data = Ok date ->
       let incident := updated_incident sdeps old incident_data date in
       let entry :=
         mkLog Error "Vector store update failed, but incident was updated"
           (Some e) in
       update_incident_in_vector_store vdeps incident
         (committed w (PendingAdd incident)) = (Raise e, ws) ->
       update_incident vdeps sdeps incident_id incident_data user_id w
       = (Ok (Some (_format_incident incident)), logged ws entry)
       /\ db (logged ws entry) = db (committed w (PendingAdd incident))
       /\ db (logged ws entry) !! id old = Some incident)
  /\ (forall incident_id w old e ws,
       db w !! incident_id = Some old ->
       let entry :=
         mkLog Error "Vector store deletion failed, but incident was deleted"
           (Some e) in
       delete_incident_from_vector_store vdeps incident_id
         (committed w (PendingDelete (id old))) = (Raise e, ws) ->
       delete_incident vdeps sdeps incident_id w
       = (Ok true, logged ws entry)
       /\ db (logged ws entry) = db (committed w (PendingDelete (id old)))
       /\ db (logged ws entry) !! id old = None).
Proof.
  intros Hcommit Hrefresh Hget. split; [|split].
  - intros incident_data user_id w date e ws Hdate incident entry Hsync.
    assert (Hdb : db (logged ws entry) = db (committed w (PendingAdd incident))).
    { rewrite db_logged.
      pose proof (keeps_add_incident vdeps incident
                    (committed w (PendingAdd incident))) as [H _].
      rewrite Hsync in H. exact H. }
    split; [|split; [exact Hdb|rewrite Hdb; apply committed_add_lookup]].
    unfold create_incident. apply try_except_sql_ok.
    rewrite (mbind_ok _ _ w date w) by (unfold lift; rewrite Hdate; reflexivity).
    fold incident. unfold session_add.
    rewrite (enqueue_commit sdeps _ _ w Hcommit).
    rewrite (refresh_committed sdeps incident _ w Hrefresh).
    apply sync_failure_swallowed. exact Hsync.
  - intros incident_id incident_data user_id w old date e ws Hold Hdate
      incident entry Hsync.
    assert (Hdb : db (logged ws entry) = db (committed w (PendingAdd incident))).
    { rewrite db_logged.
      pose proof (keeps_update_incident vdeps incident
                    (committed w (PendingAdd incident))) as [H _].
      rewrite Hsync in H. exact H. }
    split; [|split; [exact Hdb|]].
    + unfold update_incident. apply try_except_sql_ok.
      rewrite (mbind_ok _ _ w (Some old) w)
        by (rewrite (session_get_ok _ _ _ Hget), Hold; reflexivity).
      rewrite (mbind_ok _ _ w date w) by (unfold lift; rewrite Hdate; reflexivity).
      fold incident. unfold session_add.
      rewrite (enqueue_commit sdeps _ _ w Hcommit).
      rewrite (refresh_committed sdeps incident _ w Hrefresh).
      apply sync_failure_swallowed. exact Hsync.
    + rewrite Hdb. apply (committed_add_lookup w incident).
  - intros incident_id w old e ws Hold entry Hsync.
    assert (Hdb : db (logged ws entry)
                  = db (committed w (PendingDelete (id old)))).
    { rewrite db_logged.
      pose proof (keeps_delete_incident vdeps incident_id
                    (committed w (PendingDelete (id old)))) as [H _].
      rewrite Hsync in H. exact H. }
    split; [|split; [exact Hdb|rewrite Hdb; apply committed_delete_lookup]].
    unfold delete_incident. apply try_except_sql_ok.
    rewrite (mbind_ok _ _ w (Some old) w)
      by (rewrite (session_get_ok _ _ _ Hget), Hold; reflexivity).
    unfold session_delete.
    rewrite (enqueue_commit sdeps _ _ w Hcommit).
    apply sync_failure_swallowed. exact Hsync.
Qed.

Lemma C6_sync_failure_witness :
  (create_incident vdeps_down sdeps_ok sample_create 1%N world0).1
  = Ok sample_incident
  /\ db (create_incident vdeps_down sdeps_ok sample_create 1%N world0).2
       !! 7%N = Some sample_incident
  /\ (delete_incident vdeps_down sdeps_ok 7%N world1).1 = Ok true
  /\ db (delete_incident vdeps_down sdeps_ok 7%N world1).2 !! 7%N = None.
Proof.
  destruct (C6_sync_failure_keeps_commit vdeps_down sdeps_ok
              eq_refl eq_refl eq_refl) as (Hcreate & _ & Hdelete).
  edestruct (Hcreate sample_create 1%N world0 "2024-05-01T09:00:00")
    as (Hc1 & _ & Hc3); [reflexivity|vm_compute; reflexivity|].
  edestruct (Hdelete 7%N world1 sample_incident)
    as (Hd1 & _ & Hd3); [reflexivity|vm_compute; reflexivity|].
  rewrite Hc1, Hd1. simpl.
  split; [reflexivity|]. split; [exact Hc3|]. split; [reflexivity|exact Hd3].
Defined.






(** C10: [get_similar_incidents] never raises.  When its [try] block
    (building the store, the similarity search, reading the metadata)
    raises, the error is logged twice and the empty list is returned;
    otherwise the items found are returned.  A failed search and a search
    without matches therefore give the caller the same value. *)
Theorem C10_get_similar_incidents_never_raises deps query filters k w :
  (exists metas w',
     get_similar_incidents deps query filters k w = (Ok metas, w'))
  /\ (forall e w1,
       search_similar deps query filters k w = (Raise e, w1) ->
       get_similar_incidents deps query filters k w
       = (Ok [],
          logged
            (logged w1
               (mkLog Error "Error searching for similar incidents" (Some e)))
            (mkLog Error "traceback" (Some e))))
  /\ (forall metas w1,
       search_similar deps query filters k w = (Ok metas, w1) ->
       get_similar_incidents deps query filters k w = (Ok metas, w1))
  /\ (forall e w1 w2,
       search_similar deps query filters k w = (Raise e, w1) ->
       search_similar deps query filters k w2 = (Ok [], w2) ->
       (get_similar_incidents deps query filters k w).1
       = (get_similar_incidents deps query filters k w2).1).
Proof.
  split; [apply get_similar_total|].
  assert (Hraise : forall e w0 w1,
            search_similar deps query filters k w0 = (Raise e, w1) ->
            get_similar_incidents deps query filters k w0
            = (Ok [],
               logged
                 (logged w1
                    (mkLog Error "Error searching for similar incidents"
                       (Some e)))
                 (mkLog Error "traceback" (Some e)))).
  { intros e w0 w1 H. unfold get_similar_incidents.
    rewrite (try_except_raise _ _ _ _ _ H). reflexivity. }
  split; [intros e w1; apply Hraise|]. split.
  - intros metas w1 H. unfold get_similar_incidents.
    apply try_except_ok, H.
  - intros e w1 w2 H1 H2. rewrite (Hraise _ _ _ H1).
    unfold get_similar_incidents. rewrite (try_except_ok _ _ _ _ _ H2).
    reflexivity.
Qed.

Lemma C10_never_raises_witness :
  (get_similar_incidents vdeps_down "Type: theft" None 3 world3).1 = Ok []
  /\ (get_similar_incidents vdeps_ok "Type: theft" None 3 world0).1 = Ok [].
Proof.
  destruct (C10_get_similar_incidents_never_raises vdeps_down "Type: theft"
              None 3%Z world3) as (_ & Hraise & _).
  destruct (C10_get_similar_incidents_never_raises vdeps_ok "Type: theft"
              None 3%Z world0) as (_ & _ & Hok & _).
  erewrite Hraise by (vm_compute; reflexivity).
  erewrite Hok by (vm_compute; reflexivity).
  split; reflexivity.
Defined.

End ServiceClaims.

(** ** More about main.py: what the retrieval returns *)

Module MainFacts.
Import Fusion Fixtures FusionFacts MainMore.

(** *** Converting ids and selecting rows *)

Lemma map_result_length {A B} (f : A -> result B) xs :
  forall ys, map_result f xs = Ok ys -> length ys = length xs.
Proof.
  induction xs as [|x xs IH]; intros ys H; simpl in H.
  - injection H as <-. reflexivity.
  - destruct (f x) as [y|e]; [|discriminate]. simpl in H.
    destruct (map_result f xs) as [ys'|e]; [|discriminate]. simpl in H.
    injection H as <-. simpl. rewrite (IH ys' eq_refl). reflexivity.
Qed.

Lemma map_result_forall {A B} (f : A -> result B) (P : B -> Prop) xs :
  (forall x y, f x = Ok y -> P y) ->
  forall ys, map_result f xs = Ok ys -> Forall P ys.
Proof.
  intros Hf. induction xs as [|x xs IH]; intros ys H; simpl in H.
  - injection H as <-. constructor.
  - destruct (f x) as [y|e] eqn:Hx; [|discriminate]. simpl in H.
    destruct (map_result f xs) as [ys'|e]; [|discriminate]. simpl in H.
    injection H as <-. constructor; [eapply Hf, Hx|apply IH; reflexivity].
Qed.

Lemma iloc_one_in {Row} (df : list Row) i r :
  iloc_one Row df i = Ok r -> r ∈ df.
Proof.
  unfold iloc_one.
  destruct ((0 <=? _)%Z && _); [|discriminate].
  destruct (df !! _) as [r'|] eqn:Hr; [|discriminate].
  intros H. injection H as <-. eapply list_elem_of_lookup_2, Hr.
Qed.

Lemma top_docs_length d n :
  (0 <= n)%Z -> length (top_docs_of d n) <= Z.to_nat n.
Proof.
  intros Hn. unfold top_docs_of, slice_to. apply Z.leb_le in Hn. rewrite Hn.
  rewrite length_take. lia.
Qed.

(** X1: the rows [multi_context_query] returns are rows of the data frame,
    at most [n_results] of them; the rows [query_crime_data] returns are
    rows of the data frame, one per id the index answered with. *)
Theorem X1_rows_come_from_the_frame {Row} env q (df : list Row) :
  (forall weights n rows,
     (0 <= n)%Z ->
     multi_context_query env q df weights n = Ok rows ->
     length rows <= Z.to_nat n /\ Forall (fun row => row ∈ df) rows)
  /\ (forall context_type n rows,
       query_crime_data env q df context_type n = Ok rows ->
       Forall (fun row => row ∈ df) rows
       /\ exists id_texts,
            query_crime_ids env q context_type n = Ok id_texts
            /\ length rows = length id_texts).
Proof.
  split.
  - intros weights n rows Hn Hrun.
    unfold multi_context_query, multi_context_ids in Hrun.
    destruct (multi_context_top_docs env q (length df) weights n)
      as [top|e] eqn:Htop; [|discriminate]. simpl in Hrun.
    destruct (map_result int_of_str (map fst top)) as [top_ids|e] eqn:Hids;
      [|discriminate]. simpl in Hrun.
    split.
    + apply map_result_length in Hrun, Hids.
      rewrite Hrun, Hids, length_map.
      unfold multi_context_top_docs in Htop.
      destruct (multi_context_scores _ _ _ _) as [d|e]; [|discriminate].
      simpl in Htop. injection Htop as <-. apply top_docs_length, Hn.
    + eapply map_result_forall; [|exact Hrun].
      intros i r. apply iloc_one_in.
  - intros context_type n rows Hrun. unfold query_crime_data in Hrun.
    destruct (query_crime_ids env q context_type n) as [id_texts|e];
      [|discriminate]. simpl in Hrun.
    destruct (map_result int_of_str id_texts) as [doc_ids|e] eqn:Hids;
      [|discriminate]. simpl in Hrun.
    split.
    + eapply map_result_forall; [|exact Hrun]. intros i r. apply iloc_one_in.
    + exists id_texts. split; [reflexivity|].
      apply map_result_length in Hrun, Hids. congruence.
Qed.

Lemma X1_rows_witness :
  length ["row1"; "row0"] <= Z.to_nat 2
  /\ Forall (fun row => row ∈ rows3) ["row1"; "row0"].
Proof.
  destruct (X1_rows_come_from_the_frame env_scenario "q" rows3) as [H _].
  apply (H (Some weights_scenario) 2%Z).
  - lia.
  - vm_compute. reflexivity.
Defined.

(** *** The keys of the score dictionary *)

Lemma add_key_elem ks k x : x ∈ add_key ks k <-> x ∈ ks \/ x = k.
Proof.
  unfold add_key. destruct (bool_decide (k ∈ ks)) eqn:E.
  - apply bool_decide_eq_true in E. split; [auto|].
    intros [H| ->]; assumption.
  - rewrite elem_of_app, list_elem_of_singleton. reflexivity.
Qed.

Lemma add_key_nodup ks k : NoDup ks -> NoDup (add_key ks k).
Proof.
  intros H. unfold add_key. destruct (bool_decide (k ∈ ks)) eqn:E; [exact H|].
  apply bool_decide_eq_false in E. apply NoDup_app. split; [exact H|].
  split; [|apply NoDup_singleton].
  intros x Hx Hk. apply list_elem_of_singleton in Hk. subst x. contradiction.
Qed.

Lemma add_key_length ks k : length (add_key ks k) <= S (length ks).
Proof.
  unfold add_key. destruct (bool_decide (k ∈ ks)); [lia|].
  rewrite length_app. simpl. lia.
Qed.

Lemma first_seen_elem seen : forall ks x,
  x ∈ first_seen ks seen <-> x ∈ ks \/ x ∈ seen.
Proof.
  unfold first_seen. induction seen as [|k seen IH]; intros ks x; simpl.
  - rewrite elem_of_nil. tauto.
  - rewrite IH, add_key_elem, elem_of_cons. tauto.
Qed.

Lemma first_seen_nodup seen : forall ks,
  NoDup ks -> NoDup (first_seen ks seen).
Proof.
  unfold first_seen. induction seen as [|k seen IH]; intros ks H; simpl.
  - exact H.
  - apply IH, add_key_nodup, H.
Qed.

Lemma first_seen_length seen : forall ks,
  length (first_seen ks seen) <= length ks + length seen.
Proof.
  unfold first_seen. induction seen as [|k seen IH]; intros ks; simpl.
  - lia.
  - pose proof (IH (add_key ks k)). pose proof (add_key_length ks k). lia.
Qed.

Lemma slice_to_sublist {A} n (l : list A) : sublist (slice_to n l) l.
Proof. unfold slice_to. destruct (0 <=? n)%Z; apply sublist_take. Qed.

Lemma slice_to_all {A} n (l : list A) :
  (Z.of_nat (length l) <= n)%Z -> slice_to n l = l.
Proof.
  intros H. unfold slice_to.
  assert (H0 : (0 <=? n)%Z = true) by (apply Z.leb_le; lia).
  rewrite H0. apply take_ge. lia.
Qed.

(** X2: a record appears at most once in the result, however many views
    returned it; every id of the result was returned by one of the queried
    views; and when [n_results] is at least the number of ids the views
    returned, every one of those ids is in the result. *)
Theorem X2_result_is_union_without_repeats env q len weights n l :
  multi_context_ids env q len weights n = Ok l ->
  exists rs,
    queried env q (Z.of_nat len) (weights_or_default weights) rs
    /\ NoDup l
    /\ (forall k, k ∈ l -> exists r, r ∈ rs /\ k ∈ ids r)
    /\ ((Z.of_nat (length (concat (map ids rs))) <= n)%Z ->
        forall r k, r ∈ rs -> k ∈ ids r -> k ∈ l).
Proof.
  unfold multi_context_ids, multi_context_top_docs. intros Hrun.
  destruct (multi_context_scores env q (Z.of_nat len)
              (weights_or_default weights)) as [d|e] eqn:Hd; [|discriminate].
  simpl in Hrun. injection Hrun as <-.
  destruct (scores_ok_inv _ _ _ _ _ _ Hd) as (rs & Hq & Hkeys).
  simpl in Hkeys. exists rs. split; [exact Hq|].
  assert (Hperm : Permutation (map fst (sorted_desc d)) (map fst d))
    by apply Permutation_map, sorted_desc_perm.
  assert (Hsub : sublist (map fst (top_docs_of d n)) (map fst (sorted_desc d))).
  { unfold top_docs_of. apply (fmap_sublist fst), slice_to_sublist. }
  assert (Hin : forall k, k ∈ map fst d <-> exists r, r ∈ rs /\ k ∈ ids r).
  { intros k. rewrite Hkeys, first_seen_elem, elem_of_nil.
    rewrite list_elem_of_In, in_concat. split.
    - intros [[]|(ks & Hks & Hk)].
      apply in_map_iff in Hks as (r & <- & Hr). exists r.
      split; apply list_elem_of_In; assumption.
    - intros (r & Hr & Hk). right. exists (ids r).
      split; [apply in_map|]; apply list_elem_of_In; assumption. }
  split; [|split].
  - eapply sublist_NoDup; [|exact Hsub].
    rewrite Hperm, Hkeys. apply first_seen_nodup, NoDup_nil_2.
  - intros k Hk. apply Hin. rewrite <- Hperm.
    exact (sublist_subseteq _ _ Hsub k Hk).
  - intros Hn r k Hr Hk. unfold top_docs_of.
    rewrite slice_to_all.
    + rewrite Hperm. apply Hin. exists r. auto.
    + rewrite (Permutation_length (sorted_desc_perm d)).
      rewrite <- (length_map fst d), Hkeys.
      pose proof (first_seen_length (concat (map ids rs)) []). simpl in *. lia.
Qed.

Lemma X2_union_witness :
  exists rs,
    queried env_scenario "q" (Z.of_nat 3)
      (weights_or_default (Some weights_scenario)) rs
    /\ NoDup ["1"; "0"; "2"]
    /\ (forall k, k ∈ ["1"; "0"; "2"] -> exists r, r ∈ rs /\ k ∈ ids r)
    /\ ((Z.of_nat (length (concat (map ids rs))) <= 3)%Z ->
        forall r k, r ∈ rs -> k ∈ ids r -> k ∈ ["1"; "0"; "2"]).
Proof.
  apply (X2_result_is_union_without_repeats env_scenario "q" 3
           (Some weights_scenario) 3%Z).
  vm_compute. reflexivity.
Defined.

(** *** Dividing all weights by the same positive number *)












(** *** The weighting strategies of the interface *)

Lemma strategy_weights_cases strategy :
  let w := weights_or_default (strategy_weights strategy) in
  (sum_weights w == 1)%Q
  /\ Permutation (map fst w) context_types
  /\ Forall (fun v : string * Q => (0 < v.2)%Q) w.
Proof.
  unfold strategy_weights.
  repeat match goal with
         | |- context [String.eqb strategy ?x] =>
             destruct (String.eqb strategy x)
         end;
    simpl; (split; [reflexivity|split]);
    try (repeat constructor; fail);
    try (apply (bool_decide_unpack _); vm_compute; reflexivity).
Qed.

(** X4: whatever is typed as strategy, [crime_rag_interface] passes
    weights that name each of the five context types once, are positive and
    sum to 1 (strategies 2 to 5, or the default weights otherwise); with
    well-formed view results every fused score then lies in [0,1]. *)
Theorem X4_strategies_sum_to_one strategy :
  let w := weights_or_default (strategy_weights strategy) in
  (sum_weights w == 1)%Q
  /\ Permutation (map fst w) context_types
  /\ Forall (fun v : string * Q => (0 < v.2)%Q) w
  /\ (forall env q n rs,
       queried env q n w rs -> Forall well_formed rs ->
       exists d,
         multi_context_scores env q n w = Ok d
         /\ forall k, (0 <= dict_get d k 0 <= 1)%Q).
Proof.
  intros w. destruct (strategy_weights_cases strategy) as (Hsum & Hperm & Hpos).
  fold w in Hsum, Hperm, Hpos.
  split; [exact Hsum|]. split; [exact Hperm|]. split; [exact Hpos|].
  intros env q n rs Hq Hwf.
  assert (Hwf' : Forall (fun r => length (ids r) = length (distances r)
                   /\ ~ (max_dist_of (distances r) == 0)%Q) rs).
  { eapply Forall_impl; [exact Hwf|]. intros r [? ? ? ?]. split; assumption. }
  destruct (scores_from_spec env q n w rs Hq Hwf' []) as (d & Hrun & _ & Hval).
  exists d. split; [exact Hrun|].
  intros k. rewrite Hval. simpl.
  assert (Hnn : Forall (fun v : string * Q => (0 <= v.2)%Q) w).
  { eapply Forall_impl; [exact Hpos|]. intros v Hv. simpl in *. lra. }
  pose proof (fused_score_bounds w rs k Hwf Hnn). lra.
Qed.

Lemma X4_strategies_witness :
  exists d,
    multi_context_scores env_five "q" 3
      (weights_or_default (strategy_weights "3")) = Ok d
    /\ forall k, (0 <= dict_get d k 0 <= 1)%Q.
Proof.
  destruct (X4_strategies_sum_to_one "3") as (_ & _ & _ & H).
  apply (H env_five "q" 3%Z rs_five).
  - unfold queried. simpl.
    repeat (constructor; [vm_compute; reflexivity|]). constructor.
  - unfold rs_five. simpl.
    repeat (constructor;
            [constructor; simpl;
             [ reflexivity
             | apply (bool_decide_unpack _); vm_compute; reflexivity
             | repeat (constructor; [intros H0; vm_compute in H0; discriminate|]);
               constructor
             | intros H0; vm_compute in H0; discriminate ]|]).
    constructor.
Defined.

(** *** Unknown views and failing embeddings *)

Lemma for_each_app {A S} (body : S -> A -> result S) xs ys s :
  for_each body (xs ++ ys) s = bind (for_each body xs s) (for_each body ys).
Proof.
  revert s. induction xs as [|x xs IH]; intros s; simpl; [reflexivity|].
  destruct (body s x) as [s'|e]; simpl; [apply IH|reflexivity].
Qed.

Lemma query_view_unknown env q n ctx emb :
  generate_gemini_embeddings env q = Ok emb ->
  collections env !! ctx = None ->
  query_view env q n ctx = Raise (KeyError ctx).
Proof.
  intros He Hc. unfold query_view, get_collection. rewrite He, Hc. reflexivity.
Qed.

(** X5: a view name that is not a key of [collections] raises [KeyError]
    with that name: in [query_crime_data] whenever the embedding succeeds,
    in [multi_context_query] when the views listed before it were scored.
    When the embedding fails, both functions raise its exception without
    looking at any collection. *)
Theorem X5_unknown_view_is_a_key_error {Row} env q (df : list Row) :
  (forall emb ctx n,
     generate_gemini_embeddings env q = Ok emb ->
     collections env !! ctx = None ->
     query_crime_data env q df ctx n = Raise (KeyError ctx))
  /\ (forall emb pre ctx w post n d,
       generate_gemini_embeddings env q = Ok emb ->
       collections env !! ctx = None ->
       multi_context_scores env q (Z.of_nat (length df)) pre = Ok d ->
       multi_context_query env q df (Some (pre ++ (ctx, w) :: post)) n
       = Raise (KeyError ctx))
  /\ (forall e,
       generate_gemini_embeddings env q = Raise e ->
       (forall ctx n, query_crime_data env q df ctx n = Raise e)
       /\ (forall v weights n,
            multi_context_query env q df (Some (v :: weights)) n = Raise e)).
Proof.
  split; [|split].
  - intros emb ctx n He Hc. unfold query_crime_data, query_crime_ids, get_collection.
    rewrite He, Hc. reflexivity.
  - intros emb pre ctx w post n d He Hc Hpre.
    unfold multi_context_query, multi_context_ids, multi_context_top_docs,
      multi_context_scores in *. simpl.
    rewrite for_each_app, Hpre. simpl. unfold process_view at 1. simpl.
    rewrite (query_view_unknown env q _ ctx emb He Hc). reflexivity.
  - intros e He. split.
    + intros ctx n. unfold query_crime_data, query_crime_ids.
      rewrite He. reflexivity.
    + intros v weights n.
      unfold multi_context_query, multi_context_ids, multi_context_top_docs,
        multi_context_scores. simpl. unfold process_view at 1, query_view.
      rewrite He. reflexivity.
Qed.

Lemma X5_unknown_view_witness :
  query_crime_data env_scenario "q" rows3 "full_context" 3
  = Raise (KeyError "full_context")
  /\ multi_context_query env_scenario "q" rows3
       (Some ([("geo_context", 1%Q)] ++ ("full_context", 1%Q) :: [])) 3
     = Raise (KeyError "full_context").
Proof.
  destruct (X5_unknown_view_is_a_key_error env_scenario "q" rows3)
    as (Hone & Hmulti & _).
  split.
  - apply (Hone []); vm_compute; reflexivity.
  - eapply (Hmulti []); vm_compute; reflexivity.
Defined.

(** *** The ids written by [setup_chroma_db] *)

Lemma to_uint_nonnil n : N.to_uint n <> Decimal.Nil.
Proof.
  destruct n as [|p]; simpl; [discriminate|].
  apply DecimalPos.Unsigned.to_uint_nonnil.
Qed.

(** [int(str(i)) = i] *)
Lemma int_of_str_of_nat i : int_of_str (str_of_nat i) = Ok (Z.of_nat i).
Proof.
  unfold int_of_str, str_of_nat.
  change (NilZero.string_of_uint (N.to_uint (N.of_nat i)))
    with (NilZero.string_of_int (Decimal.Pos (N.to_uint (N.of_nat i)))).
  rewrite NilZero.isi.
  - simpl. unfold Z.of_uint.
    change (Pos.of_uint (N.to_uint (N.of_nat i)))
      with (N.of_uint (N.to_uint (N.of_nat i))).
    rewrite DecimalN.Unsigned.of_to, nat_N_Z. reflexivity.
  - intros H. injection H as H. apply (to_uint_nonnil _ H).
  - discriminate.
Qed.

Lemma str_of_nat_inj i j : str_of_nat i = str_of_nat j -> i = j.
Proof.
  intros H. apply (f_equal int_of_str) in H.
  rewrite !int_of_str_of_nat in H. injection H as H. lia.
Qed.

Lemma iloc_one_nat {Row} (df : list Row) i row :
  df !! i = Some row -> iloc_one Row df (Z.of_nat i) = Ok row.
Proof.
  intros H. pose proof (lookup_lt_Some _ _ _ H) as Hlt. unfold iloc_one.
  assert (H1 : (Z.of_nat i <? 0)%Z = false) by (apply Z.ltb_ge; lia).
  rewrite H1.
  assert (H2 : ((0 <=? Z.of_nat i)%Z && (Z.of_nat i <? Z.of_nat (length df))%Z)
               = true).
  { apply andb_true_intro. split; [apply Z.leb_le|apply Z.ltb_lt]; lia. }
  rewrite H2, Nat2Z.id, H. reflexivity.
Qed.

Lemma rows_of_ids {Row} (df : list Row) : forall from rows,
  (forall i row, rows !! i = Some row -> df !! (from + i) = Some row) ->
  bind (map_result int_of_str (map str_of_nat (seq from (length rows))))
       (iloc Row df)
  = Ok rows.
Proof.
  intros from rows. revert from.
  induction rows as [|row rows IH]; intros from Hrows; [reflexivity|].
  simpl. rewrite int_of_str_of_nat. simpl.
  specialize (IH (S from)).
  destruct (map_result int_of_str (map str_of_nat (seq (S from) (length rows))))
    as [positions|e]; simpl in *.
  - unfold iloc in *. simpl.
    rewrite (iloc_one_nat df from row)
      by (rewrite <- (Nat.add_0_r from); apply (Hrows 0); reflexivity).
    simpl. rewrite IH; [reflexivity|].
    intros i r Hi. rewrite <- Nat.add_succ_r. apply (Hrows (S i)), Hi.
  - exfalso. assert (H : @Raise (list Row) e = Ok rows); [|discriminate].
    apply IH. intros i r Hi. rewrite <- Nat.add_succ_r.
    apply (Hrows (S i)), Hi.
Qed.

(** X6: [setup_chroma_db] adds one id, one document and one metadata
    record per row of the data frame; the ids are distinct; the record at
    position [i] is stored under the id [str(i)], which is also the ["id"] of
    its metadata, and [df.iloc[int(id)]] is that record.  Reading all ids
    back through [int()] and [iloc] gives the data frame. *)
Theorem X6_setup_ids_read_back_as_positions {Row} (cols : Columns Row)
    (df : list Row) embeddings context_type :
  let call := setup_add cols df embeddings context_type in
  length (add_ids call) = length df
  /\ length (add_texts call) = length df
  /\ length (add_metadatas call) = length df
  /\ NoDup (add_ids call)
  /\ (forall i row,
       df !! i = Some row ->
       add_ids call !! i = Some (str_of_nat i)
       /\ (exists md, add_metadatas call !! i = Some md
                      /\ head md = Some ("id", str_of_nat i))
       /\ bind (int_of_str (str_of_nat i)) (iloc_one Row df) = Ok row)
  /\ bind (map_result int_of_str (add_ids call)) (iloc Row df) = Ok df.
Proof.
  simpl. split; [rewrite length_map, length_seq; reflexivity|].
  split; [apply length_map|]. split; [apply length_imap|]. split; [|split].
  - assert (Hinj : Inj eq eq str_of_nat)
      by (intros i j; apply str_of_nat_inj).
    apply (NoDup_fmap_2 str_of_nat), NoDup_seq.
  - intros i row Hrow. pose proof (lookup_lt_Some _ _ _ Hrow) as Hlt.
    split; [|split].
    + change (map str_of_nat (seq 0 (length df)))
        with (str_of_nat <$> seq 0 (length df)).
      rewrite list_lookup_fmap, lookup_seq_lt by exact Hlt. reflexivity.
    + rewrite list_lookup_imap, Hrow. simpl. eexists. split; reflexivity.
    + rewrite int_of_str_of_nat. simpl. apply iloc_one_nat, Hrow.
  - apply (rows_of_ids df 0 df). intros i row Hrow. exact Hrow.
Qed.

Lemma X6_setup_ids_witness :
  add_ids (setup_add text_columns rows3 (fun _ => []) "geo_context") !! 2
  = Some (str_of_nat 2)
  /\ bind (int_of_str (str_of_nat 2)) (iloc_one string rows3) = Ok "row2".
Proof.
  destruct (X6_setup_ids_read_back_as_positions text_columns rows3
              (fun _ => []) "geo_context") as (_ & _ & _ & _ & H & _).
  destruct (H 2 "row2") as (Hid & _ & Hrow); [reflexivity|].
  split; assumption.
Defined.

Lemma setup_ids_convert {Row} (df : list Row) ks :
  (forall k, k ∈ ks -> exists i, k = str_of_nat i /\ i < length df) ->
  exists rows,
    bind (map_result int_of_str ks) (iloc Row df) = Ok rows
    /\ length rows = length ks.
Proof.
  induction ks as [|k ks IH]; intros Hsub.
  - exists []. split; reflexivity.
  - destruct (Hsub k) as (i & -> & Hi); [apply list_elem_of_here|].
    destruct IH as (rows & Hrows & Hlen).
    { intros k' Hk'. apply Hsub, list_elem_of_further, Hk'. }
    destruct (lookup_lt_is_Some_2 df i Hi) as [row Hrow].
    simpl. rewrite int_of_str_of_nat. simpl.
    destruct (map_result int_of_str ks) as [positions|e]; [|discriminate].
    unfold iloc in *. simpl in *. rewrite (iloc_one_nat df i row Hrow). simpl.
    rewrite Hrows. simpl.
    exists (row :: rows). split; [reflexivity|]. simpl. lia.
Qed.

(** X7: when every id the queried views return is one of the ids
    [setup_chroma_db] wrote for this data frame, the last steps of
    [multi_context_query] ([int()] and [iloc]) cannot fail: as soon as the
    scores are computed, the retrieval returns one row per ranked id. *)
Theorem X7_setup_ids_never_fail_conversion {Row} env q (df : list Row)
    weights n d :
  multi_context_scores env q (Z.of_nat (length df))
    (weights_or_default weights) = Ok d ->
  (forall k, k ∈ map fst d -> k ∈ map str_of_nat (seq 0 (length df))) ->
  exists rows,
    multi_context_query env q df weights n = Ok rows
    /\ length rows = length (top_docs_of d n).
Proof.
  intros Hd Hids.
  unfold multi_context_query, multi_context_ids, multi_context_top_docs.
  rewrite Hd. simpl.
  assert (Hsub : forall k, k ∈ map fst (top_docs_of d n) ->
                 exists i, k = str_of_nat i /\ i < length df).
  { intros k Hk.
    assert (Hk' : k ∈ map fst d).
    { rewrite <- (Permutation_map fst (sorted_desc_perm d)).
      eapply sublist_subseteq; [|exact Hk].
      unfold top_docs_of. apply (fmap_sublist fst), slice_to_sublist. }
    apply Hids, list_elem_of_In, in_map_iff in Hk' as (i & <- & Hi).
    apply in_seq in Hi. exists i. split; [reflexivity|lia]. }
  destruct (setup_ids_convert df (map fst (top_docs_of d n)) Hsub)
    as (rows & Hrows & Hlen).
  exists rows. split; [exact Hrows|]. rewrite Hlen. apply length_map.
Qed.

Lemma X7_setup_ids_witness :
  exists rows,
    multi_context_query env_scenario "q" rows3 (Some weights_scenario) 2
    = Ok rows
    /\ length rows
       = length (top_docs_of
                   [("0", (80 # 90)%Q); ("1", (3400 # 3600)%Q);
                    ("2", (0 # 3600)%Q)] 2).
Proof.
  eapply (X7_setup_ids_never_fail_conversion env_scenario "q" rows3
            (Some weights_scenario) 2%Z).
  - vm_compute. reflexivity.
  - intros k Hk. simpl in Hk.
    repeat (apply elem_of_cons in Hk as [->|Hk];
            [apply (bool_decide_unpack _); vm_compute; reflexivity|]).
    apply elem_of_nil in Hk. contradiction.
Defined.

End MainFacts.

(** ** More about the vector-store wrapper and the sync adapter *)

Module StoreFacts.
Import VStore IncidentsVS Service ServiceFixtures ServiceFacts StoreMore.

(** *** The wrapper when the store cannot be reached *)



(** *** Reading never writes *)

Lemma only_logs_ret {A} (a : A) : only_logs (ret a).
Proof. intros w. exists []. simpl. rewrite app_nil_r. destruct w; reflexivity. Qed.

Lemma only_logs_throw {A} e : only_logs (@throw A e).
Proof. intros w. exists []. simpl. rewrite app_nil_r. destruct w; reflexivity. Qed.

Lemma only_logs_lift {A} (r : result A) : only_logs (lift r).
Proof. intros w. exists []. simpl. rewrite app_nil_r. destruct w; reflexivity. Qed.

Lemma only_logs_logger lvl msg e : only_logs (logger lvl msg e).
Proof. intros w. eexists. reflexivity. Qed.

Lemma only_logs_read {A} (f : Index -> result A) :
  only_logs (on_index (fun idx => (f idx, idx))).
Proof.
  intros w. exists []. unfold on_index. simpl. rewrite app_nil_r.
  destruct w; reflexivity.
Qed.

Lemma only_logs_bind {A B} (m : M A) (k : A -> M B) :
  only_logs m -> (forall a, only_logs (k a)) -> only_logs (mbind m k).
Proof.
  intros Hm Hk w. unfold mbind. destruct (Hm w) as [l1 H1].
  destruct (m w) as [[a|e] w1]; simpl in *.
  - destruct (Hk a w1) as [l2 H2]. exists (l1 ++ l2). rewrite H2, H1. simpl.
    rewrite app_assoc. reflexivity.
  - exists l1. exact H1.
Qed.

Lemma only_logs_try {A} (m : M A) (h : exn -> M A) :
  only_logs m -> (forall e, only_logs (h e)) -> only_logs (try_except m h).
Proof.
  intros Hm Hh w. unfold try_except. destruct (Hm w) as [l1 H1].
  destruct (m w) as [[a|e] w1]; simpl in *.
  - exists l1. exact H1.
  - destruct (Hh e w1) as [l2 H2]. exists (l1 ++ l2). rewrite H2, H1. simpl.
    rewrite app_assoc. reflexivity.
Qed.

Lemma only_logs_similarity_search self query k filter :
  only_logs (similarity_search self query k filter).
Proof.
  unfold similarity_search. apply only_logs_try.
  - apply only_logs_bind; [apply only_logs_lift|]. intros store.
    apply only_logs_read.
  - intros e. apply only_logs_bind; [apply only_logs_logger|].
    intros _. apply only_logs_throw.
Qed.

Lemma only_logs_get_store deps : only_logs (get_incident_vector_store deps).
Proof.
  unfold get_incident_vector_store.
  apply only_logs_bind; [apply only_logs_lift|]. intros c. apply only_logs_ret.
Qed.

(** X9: a similarity search writes nothing but log entries: neither
    [VectorStore.similarity_search] nor [get_similar_incidents] changes the
    index, the incident table or the session, whether the search succeeds or
    fails. *)
Theorem X9_searching_only_logs self deps query filters filter k w :
  (exists entries,
     (similarity_search self query k filter w).2
     = mkWorld (index w) (db w) (pending w) (log w ++ entries))
  /\ (exists entries,
       (get_similar_incidents deps query filters k w).2
       = mkWorld (index w) (db w) (pending w) (log w ++ entries)).
Proof.
  split; [apply only_logs_similarity_search|].
  revert w. change (only_logs (get_similar_incidents deps query filters k)).
  unfold get_similar_incidents. apply only_logs_try.
  - unfold search_similar.
    apply only_logs_bind; [apply only_logs_get_store|]. intros store.
    apply only_logs_bind; [apply only_logs_similarity_search|]. intros docs.
    apply only_logs_lift.
  - intros e. apply only_logs_bind; [apply only_logs_logger|]. intros _.
    apply only_logs_bind; [apply only_logs_logger|]. intros _.
    apply only_logs_ret.
Qed.

(** *** The shared default store *)

(** X10: once [default_vector_store] is set it is never replaced: however
    many calls of [get_vector_store] follow, a call without configuration
    returns the default and a call with a configuration returns a fresh
    store of that configuration, the default staying the same.  The first
    call sets the default, to a store of its own configuration if it has
    one; it raises, leaving no default, only when it has none and
    [DATABASE_URL] is missing. *)
Theorem X10_default_store_is_never_replaced database_url connect :
  (forall configs store,
     (get_vector_stores database_url connect configs (Some store)).2
     = Some store
     /\ Forall2 (fun config r =>
                   r = match config with
                       | None => Ok store
                       | Some c => Ok (mkVectorStore c (connect c))
                       end)
          configs
          (get_vector_stores database_url connect configs (Some store)).1)
  /\ (forall c,
       get_vector_store database_url connect (Some c) None
       = (Ok (mkVectorStore c (connect c)),
          Some (mkVectorStore c (connect c))))
  /\ (database_url = None ->
      get_vector_store database_url connect None None
      = (Raise (ValueError "Database connection string not found"), None)).
Proof.
  split; [|split].
  - induction configs as [|config configs IH]; intros store; simpl.
    + split; [reflexivity|constructor].
    + destruct config as [c|]; simpl;
        destruct (IH store) as [Hd Hrs];
        destruct (get_vector_stores database_url connect configs (Some store))
          as [rs d']; simpl in *; (split; [exact Hd|]);
        constructor; try reflexivity; exact Hrs.
  - intros c. reflexivity.
  - intros ->. reflexivity.
Qed.

Lemma X10_default_store_witness :
  get_vector_store None (fun _ => Ok failing_backend) None None
  = (Raise (ValueError "Database connection string not found"), None).
Proof.
  apply (X10_default_store_is_never_replaced None
           (fun _ => Ok failing_backend)).
  reflexivity.
Defined.

(** *** Documents of incidents *)

Lemma incident_metadata_lookup deps incident :
  let md := metadata (incident_to_document deps incident) in
  md !! "id" = Some (SStr (str_of_uuid deps (id incident)))
  /\ md !! "type" = Some (SStr (type incident))
  /\ md !! "date" = Some (SStr (date incident))
  /\ md !! "severity" = Some (SStr (severity incident))
  /\ md !! "district"
     = Some (scalar_or (location incident !! "district") "unknown")
  /\ md !! "score" = None.
Proof.
  unfold incident_to_document. simpl.
  repeat split;
    repeat first [ rewrite lookup_insert_eq; reflexivity
                 | rewrite lookup_insert_ne by discriminate
                 | apply lookup_empty ].
Qed.

(** X11: the document [incident_to_document] builds for an incident has
    every metadata key [get_similar_incidents] reads: turning it into a
    result item never raises [KeyError] and gives the incident's id text,
    type, date, severity and district (["unknown"] when the location has
    none), with the default score 1.0. *)
Theorem X11_incident_document_reads_back deps incident :
  meta_of_document (incident_to_document deps incident)
  = Ok (meta_of_incident deps incident).
Proof.
  destruct (incident_metadata_lookup deps incident)
    as (Hid & Hty & Hda & Hse & Hdi & Hsc).
  unfold meta_of_document, meta_get. simpl in *.
  rewrite Hid, Hty, Hda, Hse, Hdi, Hsc. reflexivity.
Qed.

(** X12: the filter that the update and delete sync functions pass to the
    store selects the documents of that incident: it is contained in the
    metadata of the document of an incident exactly when the two ids have
    the same text. *)
Theorem X12_id_filter_selects_own_documents deps incident_id incident :
  (id_filter deps incident_id : gmap string Scalar)
    ⊆ metadata (incident_to_document deps incident)
  <-> str_of_uuid deps incident_id = str_of_uuid deps (id incident).
Proof.
  destruct (incident_metadata_lookup deps incident) as (Hid & _).
  unfold id_filter. cbv zeta in Hid. split.
  - intros H. apply map_singleton_subseteq_l in H.
    pose proof (eq_trans (eq_sym H) Hid) as H'. injection H' as H'. exact H'.
  - intros H. apply map_singleton_subseteq_l. rewrite H. exact Hid.
Qed.

(** *** The sync functions, step by step *)

Lemma get_store_ok deps url w :
  database_url deps = Some url -> url <> "" ->
  get_incident_vector_store deps w = (Ok (incident_store deps url), w).
Proof.
  intros Hurl Hne. unfold get_incident_vector_store, mbind, lift, VectorStoreConfig.
  rewrite Hurl. apply String.eqb_neq in Hne. rewrite Hne. reflexivity.
Qed.

Lemma get_store_missing deps w :
  database_url deps = None ->
  get_incident_vector_store deps w
  = (Raise (ValueError "Database connection string not found"), w).
Proof.
  intros Hurl. unfold get_incident_vector_store, mbind, lift, VectorStoreConfig.
  rewrite Hurl. reflexivity.
Qed.

(** X13: [update_incident_in_vector_store] deletes, then adds, and undoes
    nothing.  When the delete raises, the add is not attempted and the index
    is as the delete left it; when the delete succeeds and the add raises,
    the exception is re-raised and the index is as the add left it after the
    delete (the old document is not put back); when both succeed the index
    is the result of the add after the delete.  The incident table is never
    touched. *)
Theorem X13_update_is_delete_then_add deps url store incident w :
  database_url deps = Some url -> url <> "" ->
  pg_connect deps (incident_config url) = Ok store ->
  let document := incident_to_document deps incident in
  let deleted :=
    pg_delete store None (Some (id_filter deps (id incident))) (index w) in
  let added := pg_add_documents store [document] deleted.2 in
  let run := update_incident_in_vector_store deps incident w in
  (forall e, deleted.1 = Raise e ->
             run.1 = Raise e /\ index run.2 = deleted.2)
  /\ (deleted.1 = Ok tt ->
      forall e, added.1 = Raise e ->
                run.1 = Raise e /\ index run.2 = added.2)
  /\ (deleted.1 = Ok tt ->
      forall new_ids, added.1 = Ok new_ids ->
                      run.1 = Ok tt /\ index run.2 = added.2)
  /\ db run.2 = db w.
Proof.
  intros Hurl Hne Hstore document deleted added run.
  assert (Hrun : run = update_incident_in_vector_store deps incident w)
    by reflexivity.
  unfold update_incident_in_vector_store, try_except in Hrun.
  unfold mbind at 1 in Hrun. rewrite (get_store_ok deps url w Hurl Hne) in Hrun.
  unfold delete, add_documents, try_except, mbind, lift, on_index, logger,
    log_and_reraise, throw, ret, incident_store in Hrun.
  simpl in Hrun. rewrite Hstore in Hrun. simpl in Hrun.
  fold document in Hrun. fold deleted in Hrun.
  split; [|split; [|split]].
  - intros e He. destruct deleted as [r1 idx1]. simpl in *. subst r1.
    rewrite Hrun. simpl. split; reflexivity.
  - intros Hd e He. unfold added in *.
    destruct deleted as [r1 idx1]. simpl in *. subst r1. simpl in Hrun.
    destruct (pg_add_documents store [document] idx1) as [r2 idx2].
    simpl in *. subst r2. rewrite Hrun. simpl. split; reflexivity.
  - intros Hd new_ids He. unfold added in *.
    destruct deleted as [r1 idx1]. simpl in *. subst r1. simpl in Hrun.
    destruct (pg_add_documents store [document] idx1) as [r2 idx2].
    simpl in *. subst r2. rewrite Hrun. simpl. split; reflexivity.
  - apply (keeps_update_incident deps incident w).
Qed.

Lemma X13_update_witness :
  (update_incident_in_vector_store vdeps_ok (incident_with_id 8%N) world3).1
  = Ok tt
  /\ index (update_incident_in_vector_store vdeps_ok (incident_with_id 8%N)
              world3).2
     = (pg_add_documents (unchecked_backend embed3)
          [incident_to_document vdeps_ok (incident_with_id 8%N)]
          (pg_delete (unchecked_backend embed3) None
             (Some (id_filter vdeps_ok 8%N)) (index world3)).2).2.
Proof.
  destruct (X13_update_is_delete_then_add vdeps_ok "postgresql://caps"
              (unchecked_backend embed3) (incident_with_id 8%N) world3)
    as (_ & _ & Hok & _); [reflexivity|discriminate|reflexivity|].
  eapply Hok; reflexivity.
Defined.

(** X15: without [DATABASE_URL] no sync function reaches the store: add,
    update and delete raise the configuration's [ValueError] and leave the
    index as it is, while [get_similar_incidents] returns the empty list. *)
Theorem X15_missing_database_url deps incident incident_id query filters k w :
  database_url deps = None ->
  let e := ValueError "Database connection string not found" in
  ((add_incident_to_vector_store deps incident w).1 = Raise e
   /\ index (add_incident_to_vector_store deps incident w).2 = index w)
  /\ ((update_incident_in_vector_store deps incident w).1 = Raise e
      /\ index (update_incident_in_vector_store deps incident w).2 = index w)
  /\ ((delete_incident_from_vector_store deps incident_id w).1 = Raise e
      /\ index (delete_incident_from_vector_store deps incident_id w).2
         = index w)
  /\ (get_similar_incidents deps query filters k w).1 = Ok [].
Proof.
  intros Hurl e.
  unfold add_incident_to_vector_store, update_incident_in_vector_store,
    delete_incident_from_vector_store, get_similar_incidents, search_similar,
    try_except, mbind.
  rewrite !(get_store_missing deps w Hurl). simpl.
  repeat split; reflexivity.
Qed.

Lemma X15_missing_url_witness :
  (get_similar_incidents
     (mkDeps None (fun _ => Ok failing_backend) (fun _ => "{}")
        decimal_of_uuid) "Type: theft" None 3 world3).1 = Ok [].
Proof.
  apply (X15_missing_database_url
           (mkDeps None (fun _ => Ok failing_backend) (fun _ => "{}")
              decimal_of_uuid) (incident_with_id 7%N) 7%N "Type: theft" None
           3%Z world3).
  reflexivity.
Defined.

(** *** One document without a required key *)

Lemma map_result_raises {A B} (f : A -> result B) xs x :
  In x xs -> raises (f x) -> raises (map_result f xs).
Proof.
  induction xs as [|y xs IH]; intros Hin Hx; [destruct Hin|].
  simpl. destruct Hin as [->|Hin].
  - destruct Hx as [e ->]. exists e. reflexivity.
  - destruct (f y) as [b|e]; simpl; [|exists e; reflexivity].
    destruct (IH Hin Hx) as [e ->]. exists e. reflexivity.
Qed.

Lemma meta_of_document_missing doc key :
  In key required_keys -> metadata doc !! key = None ->
  raises (meta_of_document doc).
Proof.
  unfold required_keys, meta_of_document, meta_get. simpl.
  intros Hkey Hnone.
  repeat match goal with
         | |- context [metadata doc !! ?k0] =>
             lazymatch k0 with
             | "score" => fail
             | _ => destruct (metadata doc !! k0) eqn:?; simpl;
                    [|eexists; reflexivity]
             end
         end.
  exfalso.
  repeat (destruct Hkey as [<-|Hkey]; [congruence|]). destruct Hkey.
Qed.

(** X17: the items are built inside the [try] block, so one returned
    document that lacks one of the keys ["id"], ["type"], ["date"],
    ["severity"], ["district"] turns the whole answer of
    [get_similar_incidents] into the empty list, whatever the other
    documents are. *)
Theorem X17_one_bad_document_empties_the_answer deps url store query filters
    k w documents doc key :
  database_url deps = Some url -> url <> "" ->
  pg_connect deps (incident_config url) = Ok store ->
  pg_similarity_search store query k (search_filter_of filters) (index w)
  = Ok documents ->
  In doc documents -> In key required_keys ->
  metadata doc !! key = None ->
  (get_similar_incidents deps query filters k w).1 = Ok [].
Proof.
  intros Hurl Hne Hstore Hsearch Hdoc Hkey Hnone.
  destruct (map_result_raises meta_of_document documents doc Hdoc
              (meta_of_document_missing doc key Hkey Hnone)) as [e He].
  unfold get_similar_incidents, try_except, search_similar.
  unfold mbind at 1. rewrite (get_store_ok deps url w Hurl Hne).
  fold (search_filter_of filters).
  unfold similarity_search, try_except, mbind, lift, on_index, incident_store.
  simpl. rewrite Hstore. simpl. rewrite Hsearch. simpl. rewrite He. reflexivity.
Qed.

Lemma X17_bad_document_witness :
  (get_similar_incidents vdeps_ok "Type: theft" None 3 world_bad).1 = Ok [].
Proof.
  apply (X17_one_bad_document_empties_the_answer vdeps_ok "postgresql://caps"
           (unchecked_backend embed3) "Type: theft" None 3%Z world_bad
           [sample_document] sample_document "type").
  - reflexivity.
  - discriminate.
  - reflexivity.
  - vm_compute. reflexivity.
  - simpl. left. reflexivity.
  - simpl. right. left. reflexivity.
  - vm_compute. reflexivity.
Defined.

End StoreFacts.

(** ** More about the incident service *)

Module ServiceMoreFacts.
Import VStore IncidentsVS Service ServiceFixtures ServiceFacts StoreMore
  ServiceMore StoreFacts.

(** *** When the database fails *)

Lemma enqueue_commit_fails {A} sdeps op (k : M A) w msg :
  commit_fault sdeps = Some msg ->
  (enqueue op ;;; session_commit sdeps ;;; k) w
  = (Raise (SQLAlchemyError msg),
     mkWorld (index w) (db w) (pending w ++ [op]) (log w)).
Proof.
  intros H. unfold mbind, enqueue, session_commit, fault. rewrite H. reflexivity.
Qed.

Lemma database_error_handled {A} (m : M A) where_ msg w w' :
  m w = (Raise (SQLAlchemyError msg), w') ->
  try_except_sql m (on_database_error where_) w
  = (Raise (ValueError ("Database error: " ++ msg)%string),
     mkWorld (index w') (db w') []
       (log w' ++ [mkLog Error where_ (Some (SQLAlchemyError msg))])).
Proof.
  intros H. unfold try_except_sql, try_except. rewrite H. reflexivity.
Qed.

(** X18: when the commit fails, [create_incident], [update_incident] and
    [delete_incident] raise [ValueError] with the text ["Database error: "]
    followed by the database message; the session is rolled back, the error
    is logged, the incident table is as before and, the sync being placed
    after the commit, the index is as before too: no index entry is written
    for a row that was not committed. *)
Theorem X18_commit_failure_rolls_back vdeps sdeps msg :
  commit_fault sdeps = Some msg ->
  get_fault sdeps = None ->
  let e := ValueError ("Database error: " ++ msg)%string in
  (forall incident_data user_id w date,
     fromisoformat sdeps (c_date incident_data) = Ok date ->
     create_incident vdeps sdeps incident_data user_id w
     = (Raise e,
        rolled_back w
          (mkLog Error "Database error in create_incident"
             (Some (SQLAlchemyError msg)))))
  /\ (forall incident_id incident_data user_id w old date,
       db w !! incident_id = Some old ->
       update_date sdeps old incident_data = Ok date ->
       update_incident vdeps sdeps incident_id incident_data user_id w
       = (Raise e,
          rolled_back w
            (mkLog Error "Database error in update_incident"
               (Some (SQLAlchemyError msg)))))
  /\ (forall incident_id w old,
       db w !! incident_id = Some old ->
       delete_incident vdeps sdeps incident_id w
       = (Raise e,
          rolled_back w
            (mkLog Error "Database error in delete_incident"
               (Some (SQLAlchemyError msg))))).
Proof.
  intros Hcommit Hget e. split; [|split].
  - intros incident_data user_id w date Hdate. unfold create_incident.
    erewrite database_error_handled.
    2:{ rewrite (mbind_ok _ _ w date w)
          by (unfold lift; rewrite Hdate; reflexivity).
        unfold session_add. apply enqueue_commit_fails, Hcommit. }
    reflexivity.
  - intros incident_id incident_data user_id w old date Hold Hdate.
    unfold update_incident.
    erewrite database_error_handled.
    2:{ rewrite (mbind_ok _ _ w (Some old) w)
          by (rewrite (session_get_ok _ _ _ Hget), Hold; reflexivity).
        rewrite (mbind_ok _ _ w date w)
          by (unfold lift; rewrite Hdate; reflexivity).
        unfold session_add. apply enqueue_commit_fails, Hcommit. }
    reflexivity.
  - intros incident_id w old Hold. unfold delete_incident.
    erewrite database_error_handled.
    2:{ rewrite (mbind_ok _ _ w (Some old) w)
          by (rewrite (session_get_ok _ _ _ Hget), Hold; reflexivity).
        unfold session_delete. apply enqueue_commit_fails, Hcommit. }
    reflexivity.
Qed.

Lemma X18_commit_failure_witness :
  create_incident vdeps_ok sdeps_commit_fails sample_create 1%N world3
  = (Raise (ValueError "Database error: connection lost"),
     rolled_back world3
       (mkLog Error "Database error in create_incident"
          (Some (SQLAlchemyError "connection lost")))).
Proof.
  destruct (X18_commit_failure_rolls_back vdeps_ok sdeps_commit_fails
              "connection lost" eq_refl eq_refl) as (Hcreate & _).
  apply (Hcreate sample_create 1%N world3 "2024-05-01T09:00:00").
  reflexivity.
Defined.



(** X20: for an id that is not in the incident table, [get_incident] and
    [update_incident] return [None] and [delete_incident] returns [False];
    nothing is committed, synced or logged. *)
Theorem X20_unknown_id_is_a_no_op vdeps sdeps incident_id w :
  get_fault sdeps = None ->
  db w !! incident_id = None ->
  get_incident sdeps incident_id w = (Ok None, w)
  /\ (forall incident_data user_id,
       update_incident vdeps sdeps incident_id incident_data user_id w
       = (Ok None, w))
  /\ delete_incident vdeps sdeps incident_id w = (Ok false, w).
Proof.
  intros Hget Hnone. split; [|split].
  - unfold get_incident. apply try_except_sql_ok.
    rewrite (mbind_ok _ _ w None w)
      by (rewrite (session_get_ok _ _ _ Hget), Hnone; reflexivity).
    reflexivity.
  - intros incident_data user_id. unfold update_incident.
    apply try_except_sql_ok.
    rewrite (mbind_ok _ _ w None w)
      by (rewrite (session_get_ok _ _ _ Hget), Hnone; reflexivity).
    reflexivity.
  - unfold delete_incident. apply try_except_sql_ok.
    rewrite (mbind_ok _ _ w None w)
      by (rewrite (session_get_ok _ _ _ Hget), Hnone; reflexivity).
    reflexivity.
Qed.

Lemma X20_unknown_id_witness :
  delete_incident vdeps_ok sdeps_ok 5%N world3 = (Ok false, world3).
Proof.
  apply (X20_unknown_id_is_a_no_op vdeps_ok sdeps_ok 5%N world3).
  - reflexivity.
  - vm_compute. reflexivity.
Defined.

(** *** Create, read, delete *)

(** Whatever the sync does, the step after the commit returns and leaves
    the table and the session as they are. *)
Lemma sync_step_returns {A} (sync : M unit) msg (x : A) w :
  keeps_table sync ->
  exists w',
    (try_except sync (fun e => logger Error msg (Some e)) ;;; ret x) w
    = (Ok x, w')
    /\ db w' = db w /\ pending w' = pending w.
Proof.
  intros Hk. destruct (Hk w) as [Hdb Hp]. unfold mbind, try_except.
  destruct (sync w) as [[[]|e] w1]; simpl in *.
  - exists w1. auto.
  - eexists. split; [reflexivity|]. simpl. auto.
Qed.

Lemma create_returns vdeps sdeps incident_data user_id w date :
  commit_fault sdeps = None -> refresh_fault sdeps = None ->
  fromisoformat sdeps (c_date incident_data) = Ok date ->
  let incident := new_incident vdeps sdeps incident_data user_id date in
  exists w',
    create_incident vdeps sdeps incident_data user_id w = (Ok incident, w')
    /\ db w' = db (committed w (PendingAdd incident))
    /\ pending w' = [].
Proof.
  intros Hcommit Hrefresh Hdate incident.
  destruct (sync_step_returns (add_incident_to_vector_store vdeps incident)
              "Vector store update failed, but incident was created"
              (_format_incident incident)
              (committed w (PendingAdd incident))
              (keeps_add_incident vdeps incident)) as (w' & Hrun & Hdb & Hp).
  exists w'. split; [|split; assumption].
  unfold create_incident. apply try_except_sql_ok.
  rewrite (mbind_ok _ _ w date w) by (unfold lift; rewrite Hdate; reflexivity).
  fold incident. unfold session_add.
  rewrite (enqueue_commit sdeps _ _ w Hcommit).
  rewrite (refresh_committed sdeps incident _ w Hrefresh). exact Hrun.
Qed.

Lemma delete_returns vdeps sdeps incident_id w old :
  commit_fault sdeps = None -> get_fault sdeps = None ->
  db w !! incident_id = Some old ->
  exists w',
    delete_incident vdeps sdeps incident_id w = (Ok true, w')
    /\ db w' = db (committed w (PendingDelete (id old)))
    /\ pending w' = [].
Proof.
  intros Hcommit Hget Hold.
  destruct (sync_step_returns
              (delete_incident_from_vector_store vdeps incident_id)
              "Vector store deletion failed, but incident was deleted" true
              (committed w (PendingDelete (id old)))
              (keeps_delete_incident vdeps incident_id))
    as (w' & Hrun & Hdb & Hp).
  exists w'. split; [|split; assumption].
  unfold delete_incident. apply try_except_sql_ok.
  rewrite (mbind_ok _ _ w (Some old) w)
    by (rewrite (session_get_ok _ _ _ Hget), Hold; reflexivity).
  unfold session_delete. rewrite (enqueue_commit sdeps _ _ w Hcommit).
  exact Hrun.
Qed.

Lemma get_incident_reads sdeps incident_id w :
  get_fault sdeps = None ->
  get_incident sdeps incident_id w = (Ok (db w !! incident_id), w).
Proof.
  intros Hget. unfold get_incident. apply try_except_sql_ok.
  rewrite (mbind_ok _ _ w (db w !! incident_id) w)
    by apply (session_get_ok _ _ _ Hget).
  destruct (db w !! incident_id); reflexivity.
Qed.

(** X21: with a working database and a well-formed date,
    [create_incident] returns the new incident whether or not the vector
    store accepts it; [get_incident] on its id then returns that incident;
    [delete_incident] on its id then returns [True], after which
    [get_incident] returns [None]. *)
Theorem X21_create_get_delete vdeps sdeps incident_data user_id w date :
  commit_fault sdeps = None -> refresh_fault sdeps = None ->
  get_fault sdeps = None ->
  fromisoformat sdeps (c_date incident_data) = Ok date ->
  let incident := new_incident vdeps sdeps incident_data user_id date in
  exists w1 w2,
    create_incident vdeps sdeps incident_data user_id w = (Ok incident, w1)
    /\ id incident = uuid4 sdeps
    /\ get_incident sdeps (id incident) w1 = (Ok (Some incident), w1)
    /\ delete_incident vdeps sdeps (id incident) w1 = (Ok true, w2)
    /\ get_incident sdeps (id incident) w2 = (Ok None, w2).
Proof.
  intros Hcommit Hrefresh Hget Hdate incident.
  destruct (create_returns vdeps sdeps incident_data user_id w date
              Hcommit Hrefresh Hdate) as (w1 & Hcreate & Hdb1 & Hp1).
  fold incident in Hcreate, Hdb1.
  assert (Hrow : db w1 !! id incident = Some incident)
    by (rewrite Hdb1; apply committed_add_lookup).
  destruct (delete_returns vdeps sdeps (id incident) w1 incident
              Hcommit Hget Hrow) as (w2 & Hdelete & Hdb2 & Hp2).
  exists w1, w2. split; [exact Hcreate|]. split; [reflexivity|].
  split; [rewrite (get_incident_reads _ _ _ Hget), Hrow; reflexivity|].
  split; [exact Hdelete|].
  rewrite (get_incident_reads _ _ _ Hget), Hdb2.
  rewrite (committed_delete_lookup w1 (id incident)). reflexivity.
Qed.

Lemma X21_create_get_delete_witness :
  exists w1 w2,
    create_incident vdeps_down sdeps_ok sample_create 1%N world0
    = (Ok sample_incident, w1)
    /\ id sample_incident = uuid4 sdeps_ok
    /\ get_incident sdeps_ok (id sample_incident) w1
       = (Ok (Some sample_incident), w1)
    /\ delete_incident vdeps_down sdeps_ok (id sample_incident) w1
       = (Ok true, w2)
    /\ get_incident sdeps_ok (id sample_incident) w2 = (Ok None, w2).
Proof.
  apply (X21_create_get_delete vdeps_down sdeps_ok sample_create 1%N world0
           "2024-05-01T09:00:00"); reflexivity.
Defined.

(** *** What a create writes to the index *)

Lemma sync_step_index {A} (sync : M unit) msg (x : A) w :
  exists w',
    (try_except sync (fun e => logger Error msg (Some e)) ;;; ret x) w
    = (Ok x, w')
    /\ index w' = index (sync w).2 /\ db w' = db (sync w).2.
Proof.
  unfold mbind, try_except.
  destruct (sync w) as [[[]|e] w1]; simpl.
  - exists w1. auto.
  - eexists. split; [reflexivity|]. simpl. auto.
Qed.

Lemma add_incident_index deps url store incident w :
  database_url deps = Some url -> url <> "" ->
  pg_connect deps (incident_config url) = Ok store ->
  index (add_incident_to_vector_store deps incident w).2
  = (pg_add_documents store [incident_to_document deps incident] (index w)).2.
Proof.
  intros Hurl Hne Hstore.
  unfold add_incident_to_vector_store, try_except.
  unfold mbind at 1. rewrite (get_store_ok deps url w Hurl Hne).
  unfold add_documents, try_except, mbind, lift, on_index, logger,
    log_and_reraise, throw, ret, incident_store.
  simpl. rewrite Hstore. simpl.
  destruct (pg_add_documents store [incident_to_document deps incident]
              (index w)) as [[new_ids|e] idx]; reflexivity.
Qed.

(** X16: with a working database, [create_incident] makes exactly one
    change to the index, after the commit: the store's [add_documents] of the
    document of the committed incident, applied to the index as it was.
    Whether that add succeeds or raises, the new incident is returned and is
    in the table. *)
Theorem X16_create_indexes_the_committed_row vdeps sdeps url store
    incident_data user_id w date :
  commit_fault sdeps = None -> refresh_fault sdeps = None ->
  fromisoformat sdeps (c_date incident_data) = Ok date ->
  database_url vdeps = Some url -> url <> "" ->
  pg_connect vdeps (incident_config url) = Ok store ->
  let incident := new_incident vdeps sdeps incident_data user_id date in
  exists w',
    create_incident vdeps sdeps incident_data user_id w = (Ok incident, w')
    /\ index w'
       = (pg_add_documents store [incident_to_document vdeps incident]
            (index w)).2
    /\ db w' !! id incident = Some incident.
Proof.
  intros Hcommit Hrefresh Hdate Hurl Hne Hstore incident.
  destruct (sync_step_index (add_incident_to_vector_store vdeps incident)
              "Vector store update failed, but incident was created"
              (_format_incident incident)
              (committed w (PendingAdd incident))) as (w' & Hrun & Hidx & Hdb).
  exists w'. split; [|split].
  - unfold create_incident. apply try_except_sql_ok.
    rewrite (mbind_ok _ _ w date w)
      by (unfold lift; rewrite Hdate; reflexivity).
    fold incident. unfold session_add.
    rewrite (enqueue_commit sdeps _ _ w Hcommit).
    rewrite (refresh_committed sdeps incident _ w Hrefresh). exact Hrun.
  - rewrite Hidx.
    exact (add_incident_index vdeps url store incident
             (committed w (PendingAdd incident)) Hurl Hne Hstore).
  - rewrite Hdb.
    destruct (keeps_add_incident vdeps incident
                (committed w (PendingAdd incident))) as [H _].
    rewrite H. apply committed_add_lookup.
Qed.

Lemma X16_create_indexes_witness :
  exists w',
    create_incident vdeps_ok sdeps_ok sample_create 1%N world0
    = (Ok (new_incident vdeps_ok sdeps_ok sample_create 1%N
             "2024-05-01T09:00:00"), w')
    /\ index w'
       = (pg_add_documents (unchecked_backend embed3)
            [incident_to_document vdeps_ok
               (new_incident vdeps_ok sdeps_ok sample_create 1%N
                  "2024-05-01T09:00:00")]
            (index world0)).2
    /\ db w' !! 7%N
       = Some (new_incident vdeps_ok sdeps_ok sample_create 1%N
                 "2024-05-01T09:00:00").
Proof.
  apply (X16_create_indexes_the_committed_row vdeps_ok sdeps_ok
           "postgresql://caps" (unchecked_backend embed3) sample_create 1%N
           world0 "2024-05-01T09:00:00"); try reflexivity.
  discriminate.
Defined.

(** *** What an update changes *)

Lemma update_returns vdeps sdeps incident_id incident_data user_id w old date :
  commit_fault sdeps = None -> refresh_fault sdeps = None ->
  get_fault sdeps = None ->
  db w !! incident_id = Some old ->
  update_date sdeps old incident_data = Ok date ->
  let incident := updated_incident sdeps old incident_data date in
  exists w',
    update_incident vdeps sdeps incident_id incident_data user_id w
    = (Ok (Some incident), w')
    /\ db w' = db (committed w (PendingAdd incident)).
Proof.
  intros Hcommit Hrefresh Hget Hold Hdate incident.
  destruct (sync_step_returns (update_incident_in_vector_store vdeps incident)
              "Vector store update failed, but incident was updated"
              (Some (_format_incident incident))
              (committed w (PendingAdd incident))
              (keeps_update_incident vdeps incident)) as (w' & Hrun & Hdb & _).
  exists w'. split; [|exact Hdb].
  unfold update_incident. apply try_except_sql_ok.
  rewrite (mbind_ok _ _ w (Some old) w)
    by (rewrite (session_get_ok _ _ _ Hget), Hold; reflexivity).
  rewrite (mbind_ok _ _ w date w) by (unfold lift; rewrite Hdate; reflexivity).
  fold incident. unfold session_add.
  rewrite (enqueue_commit sdeps _ _ w Hcommit).
  rewrite (refresh_committed sdeps incident _ w Hrefresh). exact Hrun.
Qed.

(** X22: a successful [update_incident] stores and returns a row with the
    id and [created_at] of the old row and [updated_at] set to the current
    time.  A title that is absent or the empty string leaves the old title,
    any other title replaces it; a description that is given, the empty
    string included, replaces the old one, an absent one leaves it. *)
Theorem X22_update_field_rules vdeps sdeps incident_id incident_data user_id
    w old date :
  commit_fault sdeps = None -> refresh_fault sdeps = None ->
  get_fault sdeps = None ->
  db w !! incident_id = Some old ->
  update_date sdeps old incident_data = Ok date ->
  exists row w',
    update_incident vdeps sdeps incident_id incident_data user_id w
    = (Ok (Some row), w')
    /\ db w' !! id old = Some row
    /\ id row = id old
    /\ created_at row = created_at old
    /\ updated_at row = utcnow sdeps
    /\ (u_title incident_data = None \/ u_title incident_data = Some "" ->
        title row = title old)
    /\ (forall t, u_title incident_data = Some t -> t <> "" -> title row = t)
    /\ (forall text, u_description incident_data = Some text ->
                     description row = Some text)
    /\ (u_description incident_data = None ->
        description row = description old).
Proof.
  intros Hcommit Hrefresh Hget Hold Hdate.
  destruct (update_returns vdeps sdeps incident_id incident_data user_id w old
              date Hcommit Hrefresh Hget Hold Hdate) as (w' & Hrun & Hdb).
  eexists _, w'. split; [exact Hrun|].
  split;
    [rewrite Hdb;
     apply (committed_add_lookup w
              (updated_incident sdeps old incident_data date))|].
  repeat split; simpl.
  - intros [H|H]; unfold pick; rewrite H; reflexivity.
  - intros t Ht Hne. unfold pick. rewrite Ht. simpl.
    apply String.eqb_neq in Hne. rewrite Hne. reflexivity.
  - intros text Ht. rewrite Ht. reflexivity.
  - intros Ht. rewrite Ht. reflexivity.
Qed.

Lemma X22_update_witness :
  exists row w',
    update_incident vdeps_down sdeps_ok 7%N sample_update 1%N world1
    = (Ok (Some row), w')
    /\ db w' !! id sample_incident = Some row
    /\ id row = id sample_incident
    /\ created_at row = created_at sample_incident
    /\ updated_at row = utcnow sdeps_ok
    /\ (u_title sample_update = None \/ u_title sample_update = Some "" ->
        title row = title sample_incident)
    /\ (forall t, u_title sample_update = Some t -> t <> "" -> title row = t)
    /\ (forall text, u_description sample_update = Some text ->
                     description row = Some text)
    /\ (u_description sample_update = None ->
        description row = description sample_incident).
Proof.
  apply (X22_update_field_rules vdeps_down sdeps_ok 7%N sample_update 1%N
           world1 sample_incident "2024-05-01T09:00:00"); reflexivity.
Defined.

(** *** No database exception leaves the service *)


Lemma on_database_error_raises_value_error {A} where_ msg w m0 :
  (@on_database_error A where_ msg w).1 <> Raise (SQLAlchemyError m0).
Proof. simpl. discriminate. Qed.


(** *** Pages *)





End ServiceMoreFacts.

(** ** The routes over the incident service and the similar-incidents route *)

Module RouteFacts.
Import VStore IncidentsVS Service Analytics ServiceFixtures ServiceFacts
  StoreMore ServiceMore IncidentRoutes ServiceMoreFacts.

(** *** An incident that does not exist *)

(** X25: the 404 that the get, update and delete routes raise for an
    unknown incident is raised inside their own [try] block and caught by
    its [except Exception] clause: the caller receives status 500 with code
    ["server_error"], never 404.  The service's update or delete is not
    called; only the log changes. *)
Theorem X25_unknown_incident_answers_500 vdeps sdeps incident_id w :
  get_fault sdeps = None ->
  db w !! incident_id = None ->
  let entry name :=
    mkLog Error ("Unexpected error in " ++ name)%string
      (Some (HTTPException 404 "not_found")) in
  get_incident_route sdeps incident_id w
  = (Raise (HTTPException 500 "server_error"),
     logged w (entry "get_incident"))
  /\ (forall incident_data user_id,
       update_incident_route vdeps sdeps incident_id incident_data user_id w
       = (Raise (HTTPException 500 "server_error"),
          logged w (entry "update_incident")))
  /\ delete_incident_route vdeps sdeps incident_id w
     = (Raise (HTTPException 500 "server_error"),
        logged w (entry "delete_incident")).
Proof.
  intros Hget Hnone entry.
  assert (Hread : get_incident sdeps incident_id w = (Ok None, w))
    by (rewrite (get_incident_reads _ _ _ Hget), Hnone; reflexivity).
  split; [|split]; intros;
    unfold get_incident_route, update_incident_route, delete_incident_route;
    erewrite try_except_raise
      by (rewrite (mbind_ok _ _ w None w Hread); reflexivity);
    reflexivity.
Qed.

Lemma X25_unknown_incident_witness :
  get_incident_route sdeps_ok 5%N world3
  = (Raise (HTTPException 500 "server_error"),
     logged world3
       (mkLog Error "Unexpected error in get_incident"
          (Some (HTTPException 404 "not_found")))).
Proof.
  apply (X25_unknown_incident_answers_500 vdeps_ok sdeps_ok 5%N world3).
  - reflexivity.
  - vm_compute. reflexivity.
Defined.

(** *** Creating through the route *)

Lemma database_error_text msg :
  is_database_error ("Database error: " ++ msg)%string = true.
Proof. unfold is_database_error. simpl. destruct msg; reflexivity. Qed.

(** X26: the create route answers 500 ["database_error"] when the commit
    fails, the row not being stored nor indexed, and 400
    ["validation_error"] when the date text is rejected with a [ValueError]
    whose text does not start with ["Database error:"], the world being left
    as it was. *)
Theorem X26_create_route_error_codes vdeps sdeps incident_data user_id w :
  (forall msg date,
     commit_fault sdeps = Some msg ->
     fromisoformat sdeps (c_date incident_data) = Ok date ->
     (create_incident_route vdeps sdeps incident_data user_id w).1
     = Raise (HTTPException 500 "database_error")
     /\ db (create_incident_route vdeps sdeps incident_data user_id w).2 = db w
     /\ index (create_incident_route vdeps sdeps incident_data user_id w).2
        = index w)
  /\ (forall text,
       fromisoformat sdeps (c_date incident_data) = Raise (ValueError text) ->
       is_database_error text = false ->
       create_incident_route vdeps sdeps incident_data user_id w
       = (Raise (HTTPException 400 "validation_error"), w)).
Proof.
  split.
  - intros msg date Hcommit Hdate. unfold create_incident_route.
    assert (Hrun : create_incident vdeps sdeps incident_data user_id w
                   = (Raise (ValueError ("Database error: " ++ msg)%string),
                      rolled_back w
                        (mkLog Error "Database error in create_incident"
                           (Some (SQLAlchemyError msg))))).
    { unfold create_incident. erewrite database_error_handled.
      2:{ rewrite (mbind_ok _ _ w date w)
            by (unfold lift; rewrite Hdate; reflexivity).
          unfold session_add. apply enqueue_commit_fails, Hcommit. }
      reflexivity. }
    rewrite (try_except_raise _ _ _ _ _ Hrun), database_error_text.
    repeat split.
  - intros text Hdate Htext. unfold create_incident_route.
    assert (Hrun : create_incident vdeps sdeps incident_data user_id w
                   = (Raise (ValueError text), w)).
    { unfold create_incident, try_except_sql.
      erewrite try_except_raise
        by (apply mbind_raise; unfold lift; rewrite Hdate; reflexivity).
      reflexivity. }
    rewrite (try_except_raise _ _ _ _ _ Hrun), Htext. reflexivity.
Qed.

Lemma X26_create_route_witness :
  (create_incident_route vdeps_ok sdeps_commit_fails sample_create 1%N
     world3).1
  = Raise (HTTPException 500 "database_error")
  /\ create_incident_route vdeps_ok sdeps_bad_date sample_create 1%N world3
     = (Raise (HTTPException 400 "validation_error"), world3).
Proof.
  split.
  - destruct (X26_create_route_error_codes vdeps_ok sdeps_commit_fails
                sample_create 1%N world3) as (H & _).
    apply (H "connection lost" "2024-05-01T09:00:00"); reflexivity.
  - destruct (X26_create_route_error_codes vdeps_ok sdeps_bad_date
                sample_create 1%N world3) as (_ & H).
    apply (H "Invalid isoformat string"); reflexivity.
Defined.

(** *** From the items found to the rows returned *)

(** X14: the route resolves the items found against the incident table in
    the order of the search result: an item whose id is in the table gives
    that row with the item's score, an item whose id is not in the table (a
    stale index entry) is skipped without error.  An item whose id does not
    read as a UUID makes the resolution raise. *)
Theorem X14_stale_index_entries_are_skipped sdeps rdeps metas w :
  (forall uuids,
     get_fault sdeps = None ->
     Forall2 (fun inc_meta u => uuid_of_scalar rdeps (m_id inc_meta) = Ok u)
       metas uuids ->
     similar_incidents_data sdeps rdeps metas w
     = (Ok (omap (fun mu : SimilarMeta * UUID =>
                    (fun row => mkSimilarIncident (_format_incident row)
                                  (m_score mu.1)) <$> db w !! mu.2)
              (zip metas uuids)), w))
  /\ (forall inc_meta e,
       In inc_meta metas ->
       uuid_of_scalar rdeps (m_id inc_meta) = Raise e ->
       exists e', (similar_incidents_data sdeps rdeps metas w).1 = Raise e').
Proof.
  split.
  - intros uuids Hget Hall. revert w.
    induction Hall as [|inc_meta u metas uuids Hu Hall IH]; intros w.
    + reflexivity.
    + simpl. unfold mbind at 1. unfold lift. rewrite Hu.
      unfold mbind at 1. rewrite (session_get_ok _ _ _ Hget).
      unfold mbind at 1. rewrite IH.
      destruct (db w !! u); reflexivity.
  - intros inc_meta e Hin He. revert w.
    induction metas as [|m metas IH]; intros w; [destruct Hin|].
    simpl. unfold mbind at 1. unfold lift.
    destruct Hin as [->|Hin].
    + rewrite He. eexists. reflexivity.
    + destruct (uuid_of_scalar rdeps (m_id m)) as [u|e0];
        [|eexists; reflexivity].
      unfold mbind at 1.
      destruct (session_get sdeps u w) as [[row|e1] w1] eqn:Hg;
        [|eexists; reflexivity].
      apply session_get_inv in Hg as [-> ->].
      unfold mbind at 1. destruct (IH Hin w) as [e' He'].
      destruct (similar_incidents_data sdeps rdeps metas w) as [[tail|e2] w2];
        simpl in *; [discriminate|].
      eexists. reflexivity.
Qed.

Lemma X14_stale_entries_witness :
  (similar_incidents_data sdeps_ok rdeps_ok
     [meta_of_incident vdeps_ok (incident_with_id 8%N);
      meta_of_incident vdeps_ok (incident_with_id 5%N);
      meta_of_incident vdeps_ok (incident_with_id 9%N)] world3).1
  = Ok [mkSimilarIncident (incident_with_id 8%N) (SNum 1%Q);
        mkSimilarIncident (incident_with_id 9%N) (SNum 1%Q)].
Proof.
  destruct (X14_stale_index_entries_are_skipped sdeps_ok rdeps_ok
              [meta_of_incident vdeps_ok (incident_with_id 8%N);
               meta_of_incident vdeps_ok (incident_with_id 5%N);
               meta_of_incident vdeps_ok (incident_with_id 9%N)] world3)
    as (H & _).
  rewrite (H [8%N; 5%N; 9%N]).
  - vm_compute. reflexivity.
  - reflexivity.
  - repeat (constructor; [vm_compute; reflexivity|]). constructor.
Defined.

(** *** Only HTTP exceptions leave a route *)

Lemma http_only_try {A} (m : M A) (handler : exn -> M A) w :
  (forall e w0, http_only (handler e w0).1) ->
  http_only (try_except m handler w).1.
Proof.
  intros Hh. unfold try_except.
  destruct (m w) as [[a|e] w1]; simpl; [exact I|apply Hh].
Qed.

Lemma route_handler_http {A} what name e w :
  http_only (@route_handler A what name e w).1.
Proof. destruct e; simpl; exact I. Qed.

(** X27: whatever fails underneath (the session, the date parser, the
    vector store, the id parser, the analysis), the four incident routes and
    the similar-incidents route either return or raise an [HTTPException];
    no other exception reaches the framework. *)
Theorem X27_routes_raise_only_http_exceptions vdeps sdeps rdeps w :
  (forall incident_id,
     http_only (get_incident_route sdeps incident_id w).1)
  /\ (forall incident_data user_id,
       http_only
         (create_incident_route vdeps sdeps incident_data user_id w).1)
  /\ (forall incident_id incident_data user_id,
       http_only
         (update_incident_route vdeps sdeps incident_id incident_data
            user_id w).1)
  /\ (forall incident_id,
       http_only (delete_incident_route vdeps sdeps incident_id w).1)
  /\ (forall incident_id k,
       http_only
         (get_similar_incidents_analysis vdeps sdeps rdeps incident_id k w).1).
Proof.
  repeat split; intros;
    unfold get_incident_route, create_incident_route, update_incident_route,
      delete_incident_route, get_similar_incidents_analysis;
    apply http_only_try; intros e w0;
    try apply route_handler_http.
  - destruct e; simpl; try exact I.
    destruct (is_database_error msg); simpl; exact I.
  - destruct e; simpl; exact I.
Qed.

(** *** The similar-incidents route *)

(** X28: the similar-incidents route answers 400 ["invalid_id"] when the
    id text is no UUID, 404 ["not_found"] when no incident has that id (this
    route re-raises its own HTTP exceptions), and 500 ["similarity_error"]
    when reading the source incident fails; in the first two cases nothing
    is searched or logged. *)
Theorem X28_similar_route_error_codes vdeps sdeps rdeps incident_id k w :
  (forall text,
     uuid_of_str rdeps incident_id = Raise (ValueError text) ->
     get_similar_incidents_analysis vdeps sdeps rdeps incident_id k w
     = (Raise (HTTPException 400 "invalid_id"), w))
  /\ (forall incident_uuid,
       uuid_of_str rdeps incident_id = Ok incident_uuid ->
       get_fault sdeps = None ->
       db w !! incident_uuid = None ->
       get_similar_incidents_analysis vdeps sdeps rdeps incident_id k w
       = (Raise (HTTPException 404 "not_found"), w))
  /\ (forall incident_uuid msg,
       uuid_of_str rdeps incident_id = Ok incident_uuid ->
       get_fault sdeps = Some msg ->
       get_similar_incidents_analysis vdeps sdeps rdeps incident_id k w
       = (Raise (HTTPException 500 "similarity_error"), w)).
Proof.
  split; [|split].
  - intros text Hparse. unfold get_similar_incidents_analysis.
    erewrite try_except_raise.
    2:{ apply mbind_raise. unfold try_except, lift. rewrite Hparse.
        reflexivity. }
    reflexivity.
  - intros incident_uuid Hparse Hget Hnone.
    unfold get_similar_incidents_analysis.
    erewrite try_except_raise.
    2:{ rewrite (mbind_ok _ _ w incident_uuid w)
          by (unfold try_except, lift; rewrite Hparse; reflexivity).
        rewrite (mbind_ok _ _ w None w)
          by (rewrite (session_get_ok _ _ _ Hget), Hnone; reflexivity).
        reflexivity. }
    reflexivity.
  - intros incident_uuid msg Hparse Hget.
    unfold get_similar_incidents_analysis.
    erewrite try_except_raise.
    2:{ rewrite (mbind_ok _ _ w incident_uuid w)
          by (unfold try_except, lift; rewrite Hparse; reflexivity).
        apply mbind_raise. unfold session_get, fault, mbind.
        rewrite Hget. reflexivity. }
    reflexivity.
Qed.

Lemma X28_similar_route_witness :
  get_similar_incidents_analysis vdeps_ok sdeps_ok rdeps_ok "x" 2 world3
  = (Raise (HTTPException 400 "invalid_id"), world3)
  /\ get_similar_incidents_analysis vdeps_ok sdeps_ok rdeps_ok "5" 2 world3
     = (Raise (HTTPException 404 "not_found"), world3).
Proof.
  split.
  - destruct (X28_similar_route_error_codes vdeps_ok sdeps_ok rdeps_ok "x"
                2%Z world3) as (H & _).
    apply (H "badly formed UUID string"). reflexivity.
  - destruct (X28_similar_route_error_codes vdeps_ok sdeps_ok rdeps_ok "5"
                2%Z world3) as (_ & H & _).
    apply (H 5%N); [reflexivity|reflexivity|vm_compute; reflexivity].
Defined.

End RouteFacts.
